(** * kvm_pagefault01: the CVE-2021-38198 guest payload and its host-side setup

    A shallow embedding of [testcases/kernel/kvm/kvm_pagefault01.c].

    The guest payload ([handle_page_fault], [main]) is written in a small
    state monad over the guest's page-table memory, its data memory, the
    CR2 register, the registered page-fault callback and a log of the
    externally visible actions.  The services the payload consumes (MSR
    reads, the heap, the MMU of the virtual machine) are the fields of a
    [platform].  The host side ([disable_tdp], [setup]) lives in [Module Host]. *)

From Stdlib Require Import ZArith Lia.
From stdpp Require Import gmap strings list.

Local Open Scope Z_scope.

(** ** Constants *)

(** [#define PTE_BITMASK 0x1ff] and [#define PAGESIZE 0x1000]. *)
Definition PTE_BITMASK : Z := 0x1ff.
Definition PAGESIZE : Z := 0x1000.

(** Modelled from the spec: [MSR_EFER], [EFER_LMA] and [INTR_PAGE_FAULT]
    are macros of kvm_x86.h, which is not part of the sources at hand; they
    name the extended-feature MSR, its long-mode-active bit (bit 10) and the
    page-fault vector (14) of the processor. *)
Definition MSR_EFER : Z := 0xc0000080.
Definition EFER_LMA : Z := Z.shiftl 1 10.
Definition INTR_PAGE_FAULT : Z := 14.

(** [uintptr_t] arithmetic wraps at 64 bits. *)
Definition uintptr (x : Z) : Z := x mod 2 ^ 64.

(** ** Page-table entries *)

(** Modelled from the spec: [struct page_table_entry_pae] is declared in
    kvm_x86.h, which is not part of the sources at hand.  An entry is a
    fixed-width (8 byte) record carrying a present flag, a writable flag, a
    user-accessible flag and a physical frame address; [page_type] is the
    processor's large-page flag, which the page walk consults, and [attrs]
    stands for the remaining attribute bits, which the payload never
    touches.  The frame-address field is 40 bits wide. *)
Record page_table_entry_pae : Type := mk_pte {
  present : bool;
  writable : bool;
  user_access : bool;
  page_type : bool;
  address : Z;
  attrs : Z
}.

#[global] Instance page_table_entry_pae_eq_dec : EqDecision page_table_entry_pae.
Proof. solve_decision. Defined.

Definition ADDRESS_BITS : Z := 40.
Definition PTE_SIZE : Z := 8.

(** The entry all of whose bits are zero. *)
Definition zero_entry : page_table_entry_pae :=
  mk_pte false false false false 0 0.

(** Assignments to the bit-fields of an entry. *)
Definition with_present (b : bool) (e : page_table_entry_pae) :=
  mk_pte b (writable e) (user_access e) (page_type e) (address e) (attrs e).
Definition with_writable (b : bool) (e : page_table_entry_pae) :=
  mk_pte (present e) b (user_access e) (page_type e) (address e) (attrs e).
Definition with_user_access (b : bool) (e : page_table_entry_pae) :=
  mk_pte (present e) (writable e) b (page_type e) (address e) (attrs e).
Definition with_address (a : Z) (e : page_table_entry_pae) :=
  mk_pte (present e) (writable e) (user_access e) (page_type e)
         (a mod 2 ^ ADDRESS_BITS) (attrs e).

(** Modelled from the spec: [kvm_get_page_address_pae] is a helper of the
    guest library (kvm_x86.h), not part of the sources at hand: the physical
    address of the table or page an entry points at, its frame number
    shifted to an address, and 0 for an entry that is not present. *)
Definition kvm_get_page_address_pae (e : page_table_entry_pae) : Z :=
  if present e then Z.shiftl (address e) 12 else 0.

(** ** Guest state *)

(** Result types of [tst_res] and [tst_brk]. *)
Inductive ttype : Type := TPASS | TFAIL | TBROK | TINFO | TCONF.

#[global] Instance ttype_eq_dec : EqDecision ttype.
Proof. solve_decision. Defined.

Inductive access_kind : Type := Load | Store.

(** What the payload does that is visible from outside, in program order. *)
Inductive event : Type :=
| EvRdmsr (msr : Z)
| EvAlloc (size align ptr : Z)
| EvMemset (ptr len : Z)
| EvPteStore (addr : Z)
| EvSetCallback (vector userdata : Z)
| EvLoad (va pa : Z)
| EvStore (va pa val : Z)
| EvFault (vector cr2 errcode : Z)
| EvRes (t : ttype) (msg : string)
| EvExit.

#[global] Instance event_eq_dec : EqDecision event.
Proof. solve_decision. Defined.

(** Memory is typed the way the payload's pointers are: page-table entries
    ([struct page_table_entry_pae *]) and data words ([int *]), each cell
    keyed by its physical address.  The payload runs identity mapped, so the
    pointers it dereferences directly are physical addresses.  A cell that
    was never written reads as zero. *)
Record guest : Type := mk_guest {
  ptmem : gmap Z page_table_entry_pae;
  ints : gmap Z Z;
  cr2 : Z;
  pf_callback : option Z;
  log : list event
}.

Definition entry_at (m : gmap Z page_table_entry_pae) (a : Z) : page_table_entry_pae :=
  default zero_entry (m !! a).

Definition int_at (m : gmap Z Z) (a : Z) : Z := default 0 (m !! a).

Definition initial_guest (m : gmap Z page_table_entry_pae) : guest :=
  mk_guest m ∅ 0 None [].

(** The log is kept newest first; [trace] is the log in program order. *)
Definition trace (s : guest) : list event := rev (log s).

Definition emit (e : event) (s : guest) : guest :=
  mk_guest (ptmem s) (ints s) (cr2 s) (pf_callback s) (e :: log s).

(** ** The monad of guest code *)

Inductive outcome (A : Type) : Type :=
| Ret (a : A) (s : guest)      (* the code returned *)
| Exited (s : guest)           (* kvm_exit(): the guest is gone *)
| Unhandled (s : guest)        (* a fault went to default handling *)
| Hung.                        (* out of fuel *)
Arguments Ret {A} a s.
Arguments Exited {A} s.
Arguments Unhandled {A} s.
Arguments Hung {A}.

Definition M (A : Type) : Type := guest -> outcome A.

Definition ret {A} (a : A) : M A := fun s => Ret a s.

Definition bind {A B} (m : M A) (k : A -> M B) : M B := fun s =>
  match m s with
  | Ret a s' => k a s'
  | Exited s' => Exited s'
  | Unhandled s' => Unhandled s'
  | Hung => Hung
  end.

Declare Scope guest_scope.
Delimit Scope guest_scope with guest.
Notation "x <- m ;; k" := (bind m (fun x => k))
  (at level 100, m at next level, k at level 200, right associativity) : guest_scope.
Notation "m ;; k" := (bind m (fun _ => k))
  (at level 100, k at level 200, right associativity) : guest_scope.
Local Open Scope guest_scope.

(** The final state of a run, whatever way it ended. *)
Definition final {A} (o : outcome A) : option guest :=
  match o with
  | Ret _ s | Exited s | Unhandled s => Some s
  | Hung => None
  end.

(** ** Services of the guest library *)

(** Modelled from the spec: [tst_res], [tst_brk], [kvm_exit],
    [kvm_read_cregs] and [tst_set_interrupt_callback] belong to the guest
    library, not part of the sources at hand.  [tst_res] reports a result
    and returns; [kvm_exit] leaves the guest for good; [tst_brk] reports and
    then exits (a fatal abort); [kvm_read_cregs] reads the control
    registers, of which the payload uses CR2; the callback registration
    stores the handler's context for the vector. *)
Definition tst_res (t : ttype) (msg : string) : M unit :=
  fun s => Ret tt (emit (EvRes t msg) s).

Definition kvm_exit {A} : M A := fun s => Exited (emit EvExit s).

Definition tst_brk {A} (t : ttype) (msg : string) : M A :=
  tst_res t msg ;; kvm_exit.

Definition kvm_read_cregs : M Z := fun s => Ret (cr2 s) s.

Definition tst_set_interrupt_callback (vector userdata : Z) : M unit := fun s =>
  Ret tt (emit (EvSetCallback vector userdata)
            (mk_guest (ptmem s) (ints s) (cr2 s)
               (if vector =? INTR_PAGE_FAULT then Some userdata else pf_callback s)
               (log s))).

(** ** [handle_page_fault] *)

(** [errcode] is received and never looked at, as in the source. *)
Definition handle_page_fault (userdata : Z) (errcode : Z) : M Z :=
  buf_cr2 <- kvm_read_cregs ;;
  (if buf_cr2 =? uintptr userdata
   then tst_res TPASS "KVM enforces memory write permissions" ;; kvm_exit
   else ret tt) ;;
  ret 0.

(** ** The platform *)

Inductive translation : Type :=
| Translated (pa : Z)
| PageFault (errcode : Z).

(** What the payload takes from its surroundings: the MSRs, the root of the
    page tables the bootstrap built ([kvm_pagetable]), the heap, and the MMU
    the virtual machine presents.  The MMU is any function of the accesses
    made so far, the page tables in memory and the access at hand, so that
    it may be one with stale paging-structure caches. *)
Record platform : Type := mk_platform {
  rdmsr : Z -> Z;
  kvm_pagetable : Z;
  heap_alloc : Z -> Z -> Z;
  mmu : list event -> gmap Z page_table_entry_pae -> access_kind -> Z -> translation
}.

(** ** The payload *)

(** Address of [p[i]] for [p] a [struct page_table_entry_pae *]. *)
Definition idx (p i : Z) : Z := uintptr (p + PTE_SIZE * i).

(** [memset(p, 0, len)] on typed memory: every cell that starts in
    [p, p + len) reads as zero afterwards. *)
Definition outside (p len : Z) {V} (kv : Z * V) : Prop := ¬ (p <= kv.1 < p + len).

#[global] Instance outside_dec p len {V} (kv : Z * V) : Decision (outside p len kv).
Proof. unfold outside. apply _. Defined.

Definition zero_fill {V} (p len : Z) (m : gmap Z V) : gmap Z V :=
  filter (outside p len) m.

Definition set_ptmem (m : gmap Z page_table_entry_pae) (s : guest) : guest :=
  mk_guest m (ints s) (cr2 s) (pf_callback s) (log s).
Definition set_ints (m : gmap Z Z) (s : guest) : guest :=
  mk_guest (ptmem s) m (cr2 s) (pf_callback s) (log s).
Definition set_cr2 (v : Z) (s : guest) : guest :=
  mk_guest (ptmem s) (ints s) v (pf_callback s) (log s).

Definition memset (p len : Z) : M unit := fun s =>
  Ret tt (emit (EvMemset p len)
            (set_ints (zero_fill p len (ints s))
               (set_ptmem (zero_fill p len (ptmem s)) s))).

(** Reading an entry, and assigning to it (a field, or the whole struct). *)
Definition load_entry (a : Z) : M page_table_entry_pae := fun s =>
  Ret (entry_at (ptmem s) a) s.

Definition store_entry (a : Z) (f : page_table_entry_pae -> page_table_entry_pae) : M unit :=
  fun s =>
    Ret tt (emit (EvPteStore a)
              (set_ptmem (<[a := f (entry_at (ptmem s) a)]> (ptmem s)) s)).

(** Modelled from the spec: the interrupt dispatch of the guest library,
    not part of the sources at hand.  The handler registered for the vector
    receives its context and the error code; when it returns 0 the event
    goes to default handling, which ends the guest; when it returns non-zero
    the interrupted code is resumed. *)
Definition tst_handle_interrupt (vector errcode : Z) : M unit := fun s =>
  match (if vector =? INTR_PAGE_FAULT then pf_callback s else None) with
  | None => Unhandled s
  | Some userdata =>
      (handled <- handle_page_fault userdata errcode ;;
       if handled =? 0 then (fun s' => Unhandled s') else ret tt) s
  end.

(** The processor raising a page fault: CR2 receives the faulting address
    and the fault is dispatched. *)
Definition raise_page_fault (va errcode : Z) : M unit := fun s =>
  tst_handle_interrupt INTR_PAGE_FAULT errcode
    (emit (EvFault INTR_PAGE_FAULT va errcode) (set_cr2 va s)).

Definition hang {A} : M A := fun _ => Hung.

Section Payload.

Context (hw : platform).

Definition kvm_rdmsr (msr : Z) : M Z := fun s =>
  Ret (rdmsr hw msr) (emit (EvRdmsr msr) s).

Definition tst_heap_alloc_aligned (size align : Z) : M Z := fun s =>
  let p := heap_alloc hw size align in
  Ret p (emit (EvAlloc size align p) s).

(** An access of the payload through a pointer into the new mapping: the
    MMU translates it or faults.  A fault whose handler reports it handled
    returns to the faulting instruction, which runs again. *)
Fixpoint guest_access (fuel : nat) (k : access_kind) (va val : Z) : M Z := fun s =>
  match mmu hw (log s) (ptmem s) k va with
  | Translated pa =>
      match k with
      | Load => Ret (int_at (ints s) pa) (emit (EvLoad va pa) s)
      | Store => Ret val (emit (EvStore va pa val)
                            (set_ints (<[pa := val]> (ints s)) s))
      end
  | PageFault errcode =>
      (raise_page_fault va errcode ;;
       match fuel with
       | O => hang
       | S f => guest_access f k va val
       end) s
  end.

(** The [while (!pte[1].present)] loop of [main]. *)
Fixpoint find_branch (fuel : nat) (pte : Z) : M Z := fun s =>
  if present (entry_at (ptmem s) (idx pte 1)) then Ret pte s
  else match fuel with
       | O => Hung
       | S f => find_branch f (kvm_get_page_address_pae (entry_at (ptmem s) (idx pte 0))) s
       end.

Definition cacher1_ptr : Z := 0x100000000.
Definition writable_ptr : Z := 0x100200000.
Definition cacher2_ptr : Z := 0x140000000.
Definition readonly_ptr : Z := 0x140200000.

(** The part of [main] from the allocation to the registration of the
    handler (lines 81-119). *)
Definition construct (pte : Z) : M unit :=
  writable <- tst_heap_alloc_aligned (5 * PAGESIZE) PAGESIZE ;;
  memset writable (5 * PAGESIZE) ;;
  let tmp := uintptr writable in
  store_entry (idx pte 4) (with_address (Z.shiftr tmp 12)) ;;
  store_entry (idx pte 4) (with_user_access true) ;;
  store_entry (idx pte 4) (with_writable true) ;;
  store_entry (idx pte 4) (with_present true) ;;
  e <- load_entry (idx pte 4) ;;
  store_entry (idx pte 5) (fun _ => e) ;;
  store_entry (idx pte 5) (with_writable false) ;;

  let subpte := tmp in
  store_entry (idx subpte 0) (with_address (Z.shiftr (uintptr (tmp + PAGESIZE)) 12)) ;;
  store_entry (idx subpte 0) (with_user_access true) ;;
  store_entry (idx subpte 0) (with_writable false) ;;
  store_entry (idx subpte 0) (with_present true) ;;
  store_entry (idx subpte 1) (with_address (Z.shiftr (uintptr (tmp + 2 * PAGESIZE)) 12)) ;;
  store_entry (idx subpte 1) (with_user_access true) ;;
  store_entry (idx subpte 1) (with_writable true) ;;
  store_entry (idx subpte 1) (with_present true) ;;

  let subpte := uintptr (tmp + PAGESIZE) in
  store_entry (idx subpte 0) (with_address (Z.shiftr (uintptr (tmp + 3 * PAGESIZE)) 12)) ;;
  store_entry (idx subpte 0) (with_user_access true) ;;
  store_entry (idx subpte 0) (with_writable true) ;;
  store_entry (idx subpte 0) (with_present true) ;;

  let subpte := uintptr (tmp + 2 * PAGESIZE) in
  store_entry (idx subpte 0) (with_address (Z.shiftr (uintptr (tmp + 4 * PAGESIZE)) 12)) ;;
  store_entry (idx subpte 0) (with_user_access true) ;;
  store_entry (idx subpte 0) (with_writable true) ;;
  store_entry (idx subpte 0) (with_present true) ;;

  tst_set_interrupt_callback INTR_PAGE_FAULT readonly_ptr.

(** The part of [main] after the registration (lines 121-130). *)
Definition probe (fuel : nat) : M unit :=
  val <- guest_access fuel Load cacher1_ptr 0 ;;
  guest_access fuel Store writable_ptr val ;;
  val <- guest_access fuel Load cacher2_ptr 0 ;;
  guest_access fuel Store readonly_ptr val ;;
  tst_res TFAIL "Write to read-only address did not page fault".

Definition main (fuel : nat) : M unit :=
  efer <- kvm_rdmsr MSR_EFER ;;
  (if Z.land efer EFER_LMA =? 0
   then tst_brk TBROK "Bootstrap did not enable 64bit paging"
   else ret tt) ;;
  pte <- find_branch fuel (kvm_pagetable hw) ;;
  construct pte ;;
  probe fuel.

End Payload.

(** ** The processor's page walk *)

(** Index into the table of level [lvl] (0 = page table, 1 = page
    directory, 2 = page-directory-pointer table, 3 and 4 above) for [va]. *)
Definition pt_index (lvl : nat) (va : Z) : Z :=
  Z.land (Z.shiftr va (12 + 9 * Z.of_nat lvl)) PTE_BITMASK.

(** The entries a walk for [va] goes through, from the table of level
    [lvl] at [table] downwards, each with its physical address.  The walk
    ends at an entry that is not present, at a large page or at level 0. *)
Fixpoint walk_path (lvl : nat) (m : gmap Z page_table_entry_pae) (table va : Z)
  : list (Z * page_table_entry_pae) :=
  let a := table + PTE_SIZE * pt_index lvl va in
  let e := entry_at m a in
  (a, e) ::
  match lvl with
  | O => []
  | S l =>
      if present e && negb (page_type e)
      then walk_path l m (Z.shiftl (address e) 12) va
      else []
  end.

(** The walk proper, for a supervisor access with write protection on:
    [None] when an entry on the way is not present (or a large page sits at
    a level that has none), else the physical address and the write
    permission.  [inherit] says how the permission found so far combines
    with the writable flag of the next entry; the processor takes the
    conjunction. *)
Fixpoint walk (inherit : bool -> bool -> bool) (lvl : nat)
    (m : gmap Z page_table_entry_pae) (table va : Z) (w : bool) : option (Z * bool) :=
  let e := entry_at m (table + PTE_SIZE * pt_index lvl va) in
  if present e then
    let w' := inherit w (writable e) in
    match lvl with
    | O => Some (Z.shiftl (address e) 12 + Z.land va (PAGESIZE - 1), w')
    | S l =>
        if page_type e then
          if (lvl <=? 2)%nat
          then Some (Z.shiftl (address e) 12
                     + Z.land va (Z.shiftl 1 (12 + 9 * Z.of_nat lvl) - 1), w')
          else None
        else walk inherit l m (Z.shiftl (address e) 12) va w'
    end
  else None.

(** Page-fault error codes: bit 0 is set for a protection violation (clear
    for a page that is not present), bit 1 for a write. *)
Definition pf_errcode (protection : bool) (k : access_kind) : Z :=
  (if protection then 1 else 0) + (match k with Store => 2 | Load => 0 end).

(** An MMU that walks the tables in memory on every access, with [levels]
    levels below the root. *)
Definition walking_mmu (inherit : bool -> bool -> bool) (levels : nat) (root : Z)
  : list event -> gmap Z page_table_entry_pae -> access_kind -> Z -> translation :=
  fun _ m k va =>
    match walk inherit (levels - 1) m root va true with
    | None => PageFault (pf_errcode false k)
    | Some (pa, w) =>
        match k with
        | Load => Translated pa
        | Store => if w then Translated pa else PageFault (pf_errcode true k)
        end
    end.

(** The corrected implementation: a write needs every level writable. *)
Definition corrected_mmu := walking_mmu andb.

(** A defective implementation: the permission is taken from the last
    level alone. *)
Definition leaf_only (_ w : bool) : bool := w.
Definition defective_mmu := walking_mmu leaf_only.

(** ** The state the bootstrap leaves behind *)

Definition table_ok (t : Z) : bool :=
  (0 <=? t) && (t <? 2 ^ 52) && (t mod PAGESIZE =? 0).

(** From table [t], taking the first entry [n] times leads to table [b];
    the tables on the way have no second entry. *)
Fixpoint leads_to (m : gmap Z page_table_entry_pae) (n : nat) (t b : Z) : bool :=
  table_ok t &&
  match n with
  | O => t =? b
  | S k =>
      let e := entry_at m (idx t 0) in
      negb (present (entry_at m (idx t 1))) &&
      present e && negb (page_type e) && writable e &&
      (0 <=? address e) && (address e <? 2 ^ ADDRESS_BITS) &&
      leads_to m k (Z.shiftl (address e) 12) b
  end.

(** The layout the comment in [main] documents for the table [b] that
    branches: entries 0 and 1 map the first two 1 GiB regions, entry 2 is
    unmapped, entry 3 is in use; the entries for the regions above 4 GiB
    are unused. *)
Definition bootstrap_layout (m : gmap Z page_table_entry_pae) (root : Z) (n : nat) (b : Z)
  : bool :=
  leads_to m n root b &&
  present (entry_at m (idx b 0)) && present (entry_at m (idx b 1)) &&
  negb (present (entry_at m (idx b 2))) && present (entry_at m (idx b 3)) &&
  bool_decide (entry_at m (idx b 4) = zero_entry) &&
  bool_decide (entry_at m (idx b 5) = zero_entry).

(** The heap hands out page-aligned memory that holds no live entry. *)
Definition block_fresh (m : gmap Z page_table_entry_pae) (tmp : Z) : Prop :=
  map_Forall (fun a e => tmp <= a < tmp + 5 * PAGESIZE -> present e = false) m.

#[global] Instance block_fresh_dec m tmp : Decision (block_fresh m tmp).
Proof. unfold block_fresh. apply _. Defined.

Definition heap_ok (m : gmap Z page_table_entry_pae) (tmp : Z) : bool :=
  (0 <=? tmp) && (tmp + 5 * PAGESIZE <=? 2 ^ 52) && (tmp mod PAGESIZE =? 0) &&
  bool_decide (block_fresh m tmp).

(** ** What [construct] builds *)

(** An entry that is present, user accessible, not a large page, and
    points at the page-aligned [target]. *)
Definition table_entry (w : bool) (target : Z) : page_table_entry_pae :=
  mk_pte true w true false (Z.shiftr target 12) 0.

(** The page tables after [construct], for the branching table [b] and the
    allocated block [tmp]: entries 4 and 5 of [b], two entries in the first
    page of the block, one in the second and one in the third. *)
Definition built_tables (m : gmap Z page_table_entry_pae) (b tmp : Z)
  : gmap Z page_table_entry_pae :=
  <[tmp + 8192 := table_entry true (tmp + 16384)]>
  (<[tmp + 4096 := table_entry true (tmp + 12288)]>
  (<[tmp + 8 := table_entry true (tmp + 8192)]>
  (<[tmp := table_entry false (tmp + 4096)]>
  (<[b + 40 := table_entry false tmp]>
  (<[b + 32 := table_entry true tmp]> (zero_fill tmp (5 * PAGESIZE) m)))))).

(** The events of [construct], in program order. *)
Definition store_events (b tmp : Z) : list event :=
  replicate 4 (EvPteStore (b + 32)) ++ replicate 2 (EvPteStore (b + 40)) ++
  replicate 4 (EvPteStore tmp) ++ replicate 4 (EvPteStore (tmp + 8)) ++
  replicate 4 (EvPteStore (tmp + 4096)) ++ replicate 4 (EvPteStore (tmp + 8192)) ++
  [EvSetCallback INTR_PAGE_FAULT readonly_ptr].

Definition setup_events (b tmp : Z) : list event :=
  [EvAlloc (5 * PAGESIZE) PAGESIZE tmp; EvMemset tmp (5 * PAGESIZE)] ++
  store_events b tmp.

(** ** A concrete machine *)

Module Example.

Definition root : Z := 0x1000.
Definition pdpt : Z := 0x2000.
Definition heap : Z := 0x10000.

(** Four-level paging: the root's first entry points at the table that
    branches, whose entries 0 and 1 are 1 GiB pages and whose entry 3
    points at a directory. *)
Definition boot_tables : gmap Z page_table_entry_pae :=
  list_to_map
    [ (root, mk_pte true true true false 2 0);
      (pdpt, mk_pte true true true true 0 0);
      (pdpt + 8, mk_pte true true true true 0x40000 0);
      (pdpt + 24, mk_pte true true true false 3 0);
      (0x3000 + 8 * 511, mk_pte true true true true 0xffe00 0) ].

Definition machine (lma : bool)
    (m : list event -> gmap Z page_table_entry_pae -> access_kind -> Z -> translation)
  : platform :=
  mk_platform (fun msr => if (msr =? MSR_EFER) && lma then 0xd01 else 0)
              root (fun _ _ => heap) m.

Definition fixed : platform := machine true (corrected_mmu 4 root).
Definition vulnerable : platform := machine true (defective_mmu 4 root).
Definition no_long_mode : platform := machine false (corrected_mmu 4 root).

(** The states the runs on the vulnerable and on the fixed machine end in. *)
Definition vulnerable_end : guest :=
  mk_guest (built_tables boot_tables pdpt heap) (<[heap + 16384 := 0]> ∅) 0
    (Some readonly_ptr)
    (rev (EvRdmsr MSR_EFER :: setup_events pdpt heap ++
          [EvLoad cacher1_ptr (heap + 12288);
           EvStore writable_ptr (heap + 16384) 0;
           EvLoad cacher2_ptr (heap + 12288);
           EvStore readonly_ptr (heap + 16384) 0;
           EvRes TFAIL "Write to read-only address did not page fault"])).

Definition fixed_end : guest :=
  mk_guest (built_tables boot_tables pdpt heap) (<[heap + 16384 := 0]> ∅) readonly_ptr
    (Some readonly_ptr)
    (rev (EvRdmsr MSR_EFER :: setup_events pdpt heap ++
          [EvLoad cacher1_ptr (heap + 12288);
           EvStore writable_ptr (heap + 16384) 0;
           EvLoad cacher2_ptr (heap + 12288);
           EvFault INTR_PAGE_FAULT readonly_ptr 3;
           EvRes TPASS "KVM enforces memory write permissions";
           EvExit])).

End Example.

(** ** Reading a trace *)

Definition faults (t : list event) : list (Z * Z) :=
  omap (fun e => match e with EvFault _ a c => Some (a, c) | _ => None end) t.

Definition results (t : list event) : list (ttype * string) :=
  omap (fun e => match e with EvRes r msg => Some (r, msg) | _ => None end) t.

Definition accesses (t : list event) : list (access_kind * Z) :=
  omap (fun e => match e with
                 | EvLoad va _ => Some (Load, va)
                 | EvStore va _ _ => Some (Store, va)
                 | _ => None
                 end) t.

Definition allocations (t : list event) : list (Z * Z * Z) :=
  omap (fun e => match e with EvAlloc sz al p => Some (sz, al, p) | _ => None end) t.

(** Stores of the payload into page-table memory. *)
Definition mutations (t : list event) : list event :=
  omap (fun e => match e with EvPteStore _ | EvMemset _ _ => Some e | _ => None end) t.

Definition reported {A} (o : outcome A) (r : ttype) (msg : string) : bool :=
  match final o with
  | Some s => bool_decide ((r, msg) ∈ results (trace s))
  | None => false
  end.

(** The four accesses of the probe, in program order. *)
Definition probe_accesses : list (access_kind * Z) :=
  [(Load, cacher1_ptr); (Store, writable_ptr); (Load, cacher2_ptr); (Store, readonly_ptr)].

(** ** The standard start *)

(** Long mode is active, the bootstrap left the documented layout with [n]
    levels above the table [b] that branches, and the heap answers the
    request of [main] with the fresh block [tmp]. *)
Definition standard_start (hw : platform) (m : gmap Z page_table_entry_pae)
    (n : nat) (b tmp : Z) : bool :=
  negb (Z.land (rdmsr hw MSR_EFER) EFER_LMA =? 0) &&
  bootstrap_layout m (kvm_pagetable hw) n b &&
  heap_ok m tmp &&
  (heap_alloc hw (5 * PAGESIZE) PAGESIZE =? tmp).

Record start_facts (hw : platform) (m : gmap Z page_table_entry_pae)
    (n : nat) (b tmp : Z) : Prop := {
  sf_lma : (Z.land (rdmsr hw MSR_EFER) EFER_LMA =? 0) = false;
  sf_leads : leads_to m n (kvm_pagetable hw) b = true;
  sf_b_ok : table_ok b = true;
  sf_b_range : 0 <= b < 2 ^ 52;
  sf_b0 : present (entry_at m b) = true;
  sf_b1 : present (entry_at m (idx b 1)) = true;
  sf_b2 : present (entry_at m (idx b 2)) = false;
  sf_b4 : entry_at m (b + 32) = zero_entry;
  sf_heap : heap_ok m tmp = true;
  sf_t1 : 0 <= tmp;
  sf_t2 : tmp + 20480 <= 2 ^ 52;
  sf_tq : exists q, tmp = 4096 * q;
  sf_apart : b + 4096 <= tmp \/ tmp + 20480 <= b;
  sf_alloc : heap_alloc hw (5 * PAGESIZE) PAGESIZE = tmp
}.

(** ** Implementations of the MMU *)

(** An implementation never refuses what the architecture allows. *)
Definition honours_permitted (hw : platform) (levels : nat) : Prop :=
  forall h m k va pa,
    corrected_mmu levels (kvm_pagetable hw) h m k va = Translated pa ->
    mmu hw h m k va = Translated pa.

(** The defect: once the warming accesses have been made, the write through
    [readonly_ptr] is let through on the page tables [m']. *)
Definition misses_probe_fault (hw : platform) (m' : gmap Z page_table_entry_pae) : Prop :=
  forall h,
    accesses (rev h) = [(Load, cacher1_ptr); (Store, writable_ptr); (Load, cacher2_ptr)] ->
    exists pa, mmu hw h m' Store readonly_ptr = Translated pa.

(** ** Auxiliary notions *)

(** The entries on the way from the root to the table that branches. *)
Fixpoint upper_path (m : gmap Z page_table_entry_pae) (n : nat) (t : Z)
  : list (Z * page_table_entry_pae) :=
  match n with
  | O => []
  | S k => (t, entry_at m t) :: upper_path m k (Z.shiftl (address (entry_at m t)) 12)
  end.

(** Code that neither accesses the new mapping nor reports. *)
Definition quiet {A} (c : M A) : Prop :=
  forall s, exists a s' d,
    c s = Ret a s' /\ log s' = d ++ log s /\
    accesses (rev d) = [] /\ faults (rev d) = [] /\ results (rev d) = [].

(** What the spec says of the chain of [readonly_ptr]: every entry above
    the leaf is writable and the leaf is read-only. *)
Definition spec_nonleaf_writable_leaf_readonly
    (path : list (Z * page_table_entry_pae)) : bool :=
  match rev path with
  | [] => false
  | leaf :: above =>
      forallb (fun ae => writable ae.2) above && negb (writable leaf.2)
  end.

(** The cells of the block that [construct] fills in. *)
Definition installed (tmp a : Z) : option page_table_entry_pae :=
  if decide (a = tmp) then Some (table_entry false (tmp + PAGESIZE))
  else if decide (a = tmp + PTE_SIZE) then Some (table_entry true (tmp + 2 * PAGESIZE))
  else if decide (a = tmp + PAGESIZE) then Some (table_entry true (tmp + 3 * PAGESIZE))
  else if decide (a = tmp + 2 * PAGESIZE) then Some (table_entry true (tmp + 4 * PAGESIZE))
  else None.

(** ** Host side: [disable_tdp] and [setup] *)

Module Host.

Definition TDP_MMU_SYSFILE : string := "/sys/module/kvm/parameters/tdp_mmu".
Definition TDP_AMD_SYSFILE : string := "/sys/module/kvm_amd/parameters/npt".
Definition TDP_INTEL_SYSFILE : string := "/sys/module/kvm_intel/parameters/ept".

(** What the setup does that is visible from outside. *)
Inductive action : Type :=
| Reload (module : string) (argv : list string)
| Res (t : ttype) (msg : string)
| KvmSetup.

#[global] Instance action_eq_dec : EqDecision action.
Proof. solve_decision. Defined.

(** Modelled from the spec: [tst_read_bool_sys_param], [tst_module_reload]
    and [tst_kvm_setup] belong to the LTP library, not part of the sources
    at hand.  The host is any type of states with a way to read a boolean
    module parameter (positive when enabled), to reload a module with
    arguments, and to set up the KVM test. *)
Record system (H : Type) : Type := mk_system {
  read_bool_sys_param : H -> string -> Z;
  module_reload : H -> string -> list string -> H;
  kvm_setup : H -> H
}.
Arguments read_bool_sys_param {H} _ _ _.
Arguments module_reload {H} _ _ _ _.
Arguments kvm_setup {H} _ _.

Section Setup.

Context {H : Type} (sys : system H).

(** Host code threads the host state and the list of actions so far. *)
Definition HM (A : Type) : Type := H * list action -> A * (H * list action).

Definition hret {A} (a : A) : HM A := fun st => (a, st).
Definition hbind {A B} (c : HM A) (k : A -> HM B) : HM B :=
  fun st => let '(a, st') := c st in k a st'.

Definition tst_read_bool_sys_param (path : string) : HM Z :=
  fun st => (read_bool_sys_param sys st.1 path, st).

Definition tst_module_reload (name : string) (argv : list string) : HM unit :=
  fun st => (tt, (module_reload sys st.1 name argv, st.2 ++ [Reload name argv])).

Definition tst_res (t : ttype) (msg : string) : HM unit :=
  fun st => (tt, (st.1, st.2 ++ [Res t msg])).

Definition tst_kvm_setup : HM unit :=
  fun st => (tt, (kvm_setup sys st.1, st.2 ++ [KvmSetup])).

Definition disable_tdp : HM unit :=
  hbind (tst_read_bool_sys_param TDP_AMD_SYSFILE) (fun amd =>
  hbind (if 0 <? amd then tst_module_reload "kvm_amd" ["npt=0"%string] else hret tt) (fun _ =>
  hbind (tst_read_bool_sys_param TDP_INTEL_SYSFILE) (fun intel =>
  hbind (if 0 <? intel then tst_module_reload "kvm_intel" ["ept=0"%string] else hret tt) (fun _ =>
  hbind (tst_read_bool_sys_param TDP_MMU_SYSFILE) (fun tdp =>
  if 0 <? tdp
  then tst_res TINFO "WARNING: tdp_mmu is enabled, beware of false negatives"
  else hret tt))))).

Definition setup : HM unit :=
  hbind disable_tdp (fun _ => tst_kvm_setup).

(** The actions of [setup] from host state [h]. *)
Definition setup_actions (h : H) : list action := (setup (h, [])).2.2.

End Setup.

End Host.

(** ** Further notions *)

(** The three accesses that warm the paging-structure caches. *)
Definition warming_accesses : list (access_kind * Z) :=
  [(Load, cacher1_ptr); (Store, writable_ptr); (Load, cacher2_ptr)].

(** Two memories that differ at most inside the block at [tmp]. *)
Definition agree_outside (tmp : Z) (m1 m2 : gmap Z page_table_entry_pae) : Prop :=
  forall a, ~ (tmp <= a < tmp + 5 * PAGESIZE) -> m1 !! a = m2 !! a.

(** Code that always returns. *)
Definition returns {A} (c : M A) : Prop := forall s, exists a s', c s = Ret a s'.

(** Code that always returns with the handler registered for
    [readonly_ptr]. *)
Definition registers {A} (c : M A) : Prop :=
  forall s, exists a s', c s = Ret a s' /\ pf_callback s' = Some readonly_ptr.

Module HostExample.

(** A host whose state is the three parameters (npt, ept, tdp_mmu), where
    reloading a module with its parameter set to 0 turns that parameter
    off and leaves the others alone. *)
Definition read (h : Z * Z * Z) (path : string) : Z :=
  if bool_decide (path = Host.TDP_AMD_SYSFILE) then h.1.1
  else if bool_decide (path = Host.TDP_INTEL_SYSFILE) then h.1.2
  else if bool_decide (path = Host.TDP_MMU_SYSFILE) then h.2
  else -1.

Definition reload (h : Z * Z * Z) (name : string) (argv : list string) : Z * Z * Z :=
  if bool_decide (name = "kvm_amd"%string) then (0, h.1.2, h.2)
  else if bool_decide (name = "kvm_intel"%string) then (h.1.1, 0, h.2)
  else h.

Definition sys : Host.system (Z * Z * Z) := Host.mk_system _ read reload (fun h => h).

End HostExample.

(** The module reloads among the actions of the host. *)
Definition reloads (acts : list Host.action) : list (string * list string) :=
  omap (fun a => match a with Host.Reload name argv => Some (name, argv) | _ => None end)
       acts.

(** [disable_tdp] run twice in a row. *)
Definition disable_tdp_twice {H : Type} (sys : Host.system H) : Host.HM unit :=
  Host.hbind (Host.disable_tdp sys) (fun _ => Host.disable_tdp sys).

(** ** Starts whose block holds stale contents *)

(** The start of a run with data memory [i]: no handler registered yet,
    nothing logged. *)
Definition boot_guest (m : gmap Z page_table_entry_pae) (i : gmap Z Z) : guest :=
  mk_guest m i 0 None [].

(** As [standard_start], except that nothing is asked of what the block
    holds: it may be full of stale entries, present ones included.  The
    block only has to be page aligned, below 2^52, and apart from the page
    of the table [b] that branches. *)
Definition layout_start (hw : platform) (m : gmap Z page_table_entry_pae)
    (n : nat) (b tmp : Z) : bool :=
  negb (Z.land (rdmsr hw MSR_EFER) EFER_LMA =? 0) &&
  bootstrap_layout m (kvm_pagetable hw) n b &&
  (0 <=? tmp) && (tmp + 5 * PAGESIZE <=? 2 ^ 52) && (tmp mod PAGESIZE =? 0) &&
  ((b + PAGESIZE <=? tmp) || (tmp + 5 * PAGESIZE <=? b)) &&
  (heap_alloc hw (5 * PAGESIZE) PAGESIZE =? tmp).

(** Two data memories that differ at most inside the block at [tmp]. *)
Definition data_agree_outside (tmp : Z) (i1 i2 : gmap Z Z) : Prop :=
  forall a, ~ (tmp <= a < tmp + 5 * PAGESIZE) -> i1 !! a = i2 !! a.

Module StaleExample.

(** The tables of [Example.boot_tables] with the heap block left dirty:
    stale entries that are present, one of them a large page with attribute
    bits set in the very cell where [main] installs its first entry, others
    in cells [main] never stores to and in the data pages. *)
Definition stale_tables : gmap Z page_table_entry_pae :=
  <[Example.heap := mk_pte true true true true 0x777 0x5]>
  (<[Example.heap + 16 := mk_pte true true true false 0x123 0]>
  (<[Example.heap + 4096 + 8 := mk_pte true true false true 0x40000 0x3]>
  (<[Example.heap + 12288 := mk_pte true false true false 0x55 0]>
     Example.boot_tables))).

(** Data memory with stale words in the two data pages of the block and
    one word outside the block. *)
Definition stale_data : gmap Z Z :=
  <[Example.heap + 12288 := 0xdead]>
  (<[Example.heap + 16384 := 0xbeef]> (<[0x500 := 42]> ∅)).

(** The state the run on the vulnerable machine ends in from there. *)
Definition stale_end : guest :=
  mk_guest (built_tables stale_tables Example.pdpt Example.heap)
    (<[Example.heap + 16384 := 0]> (<[0x500 := 42]> ∅)) 0
    (Some readonly_ptr) (log Example.vulnerable_end).

End StaleExample.

(** ** Memory lemmas *)

Lemma entry_at_insert (m : gmap Z page_table_entry_pae) a b v :
  entry_at (<[a := v]> m) b = if decide (a = b) then v else entry_at m b.
Proof.
  unfold entry_at. rewrite lookup_insert. by destruct (decide (a = b)).
Qed.

Lemma entry_at_insert_eq (m : gmap Z page_table_entry_pae) a v :
  entry_at (<[a := v]> m) a = v.
Proof. rewrite entry_at_insert. by rewrite decide_True. Qed.

Lemma entry_at_insert_ne (m : gmap Z page_table_entry_pae) a b v :
  a ≠ b -> entry_at (<[a := v]> m) b = entry_at m b.
Proof. intros. rewrite entry_at_insert. by rewrite decide_False. Qed.

Lemma lookup_zero_fill {V} p len (m : gmap Z V) a :
  zero_fill p len m !! a = if decide (p <= a < p + len) then None else m !! a.
Proof.
  unfold zero_fill. rewrite map_lookup_filter.
  destruct (m !! a) as [v|] eqn:E; simpl.
  - unfold outside; simpl. destruct (decide (p <= a < p + len)).
    + rewrite option_guard_False; [done | tauto].
    + by rewrite option_guard_True.
  - by destruct (decide (p <= a < p + len)).
Qed.

Lemma entry_at_zero_fill p len (m : gmap Z page_table_entry_pae) a :
  entry_at (zero_fill p len m) a =
  if decide (p <= a < p + len) then zero_entry else entry_at m a.
Proof.
  unfold entry_at. rewrite lookup_zero_fill. by destruct (decide (p <= a < p + len)).
Qed.

Lemma block_fresh_entry m tmp a :
  block_fresh m tmp -> tmp <= a < tmp + 5 * PAGESIZE -> present (entry_at m a) = false.
Proof.
  intros Hf Ha. unfold entry_at. destruct (m !! a) as [e|] eqn:E; simpl; [|done].
  exact (Hf a e E Ha).
Qed.

(** ** Arithmetic of addresses *)

Lemma table_ok_spec t :
  table_ok t = true -> 0 <= t < 2 ^ 52 /\ exists q, t = 4096 * q.
Proof.
  unfold table_ok, PAGESIZE. intros H.
  apply andb_prop in H as [H H3]. apply andb_prop in H as [H1 H2].
  apply Z.leb_le in H1. apply Z.ltb_lt in H2. apply Z.eqb_eq in H3.
  split; [lia|]. exists (t / 4096). apply Z.div_exact in H3; lia.
Qed.

Lemma heap_ok_spec m t :
  heap_ok m t = true ->
  0 <= t /\ t + 20480 <= 2 ^ 52 /\ (exists q, t = 4096 * q) /\ block_fresh m t.
Proof.
  unfold heap_ok, PAGESIZE. intros H.
  apply andb_prop in H as [H H4]. apply andb_prop in H as [H H3].
  apply andb_prop in H as [H1 H2].
  apply Z.leb_le in H1. apply Z.leb_le in H2. apply Z.eqb_eq in H3.
  apply bool_decide_eq_true in H4.
  repeat split; [lia | lia | | done].
  exists (t / 4096). apply Z.div_exact in H3; lia.
Qed.

Lemma pow_52_64 : (2 : Z) ^ 52 < 2 ^ 64.
Proof. reflexivity. Qed.

Lemma idx_eq p i : 0 <= p + 8 * i < 2 ^ 64 -> idx p i = p + 8 * i.
Proof. intros H. unfold idx, uintptr, PTE_SIZE. by rewrite Z.mod_small. Qed.

Lemma uintptr_eq x : 0 <= x < 2 ^ 64 -> uintptr x = x.
Proof. intros H. unfold uintptr. by rewrite Z.mod_small. Qed.

Lemma frame_small x :
  0 <= x < 2 ^ 52 -> Z.shiftr x 12 mod 2 ^ ADDRESS_BITS = Z.shiftr x 12.
Proof.
  intros H. rewrite Z.shiftr_div_pow2 by lia. unfold ADDRESS_BITS.
  apply Z.mod_small. split; [apply Z.div_pos; lia|].
  apply Z.div_lt_upper_bound; [lia|].
  change (2 ^ 12 * 2 ^ 40) with (2 ^ 52). lia.
Qed.

Lemma frame_address q :
  0 <= 4096 * q -> Z.shiftl (Z.shiftr (4096 * q) 12) 12 = 4096 * q.
Proof.
  intros H. rewrite Z.shiftr_div_pow2 by lia.
  change (2 ^ 12) with 4096. rewrite (Z.mul_comm 4096 q), Z.div_mul by lia.
  rewrite Z.shiftl_mul_pow2 by lia. change (2 ^ 12) with 4096. lia.
Qed.

(** ** Running guest code step by step *)

Lemma bind_run {A B} (m : M A) (k : A -> M B) s a s' :
  m s = Ret a s' -> (x <- m ;; k x) s = k a s'.
Proof. unfold bind. by intros ->. Qed.

Lemma bind_exited {A B} (m : M A) (k : A -> M B) s s' :
  m s = Exited s' -> (x <- m ;; k x) s = Exited s'.
Proof. unfold bind. by intros ->. Qed.

Lemma bind_unhandled {A B} (m : M A) (k : A -> M B) s s' :
  m s = Unhandled s' -> (x <- m ;; k x) s = Unhandled s'.
Proof. unfold bind. by intros ->. Qed.

(** ** The search for the table that branches *)

Lemma leads_to_table_ok m n : forall t b,
  leads_to m n t b = true -> table_ok t = true /\ table_ok b = true.
Proof.
  induction n as [|n IH]; intros t b H; simpl in H.
  - apply andb_prop in H as [H1 H2]. apply Z.eqb_eq in H2. by subst.
  - apply andb_prop in H as [H1 H2]. split; [done|].
    repeat (apply andb_prop in H2 as [H2 ?]).
    by eapply IH.
Qed.

Lemma leads_to_step m n t b :
  leads_to m (S n) t b = true ->
  table_ok t = true /\
  present (entry_at m (idx t 1)) = false /\
  present (entry_at m t) = true /\
  page_type (entry_at m t) = false /\
  writable (entry_at m t) = true /\
  leads_to m n (Z.shiftl (address (entry_at m t)) 12) b = true.
Proof.
  intros H. simpl in H.
  apply andb_prop in H as [H1 H]. repeat (apply andb_prop in H as [H ?]).
  destruct (table_ok_spec _ H1) as [Ht _].
  assert (E : idx t 0 = t) by (rewrite idx_eq; lia). rewrite E in *.
  repeat split; try done.
  - by apply negb_true_iff.
  - by apply negb_true_iff.
Qed.

(** The loop follows the first entries and stops at the first table whose
    second entry is present. *)
Lemma find_branch_leads_to n : forall fuel t b s,
  leads_to (ptmem s) n t b = true ->
  present (entry_at (ptmem s) (idx b 1)) = true ->
  (n <= fuel)%nat ->
  find_branch fuel t s = Ret b s.
Proof.
  induction n as [|n IH]; intros fuel t b s Hl Hb Hf.
  - simpl in Hl. apply andb_prop in Hl as [_ Hl]. apply Z.eqb_eq in Hl. subst t.
    destruct fuel; simpl; by rewrite Hb.
  - destruct (leads_to_step _ _ _ _ Hl) as (Ht & H1 & H0 & _ & _ & Hl').
    destruct (table_ok_spec _ Ht) as [Hr _].
    destruct fuel as [|fuel]; [lia|]. simpl. rewrite H1.
    assert (E : idx t 0 = t) by (rewrite idx_eq; lia). rewrite E.
    unfold kvm_get_page_address_pae. rewrite H0.
    apply IH; [done | done | lia].
Qed.

(** Whatever the memory, a table the loop returns has its second entry
    present. *)
Lemma find_branch_second_present : forall fuel t b s s',
  find_branch fuel t s = Ret b s' ->
  s' = s /\ present (entry_at (ptmem s) (idx b 1)) = true.
Proof.
  induction fuel as [|fuel IH]; intros t b s s' H; simpl in H;
    destruct (present (entry_at (ptmem s) (idx t 1))) eqn:E.
  - by inversion H; subst.
  - discriminate.
  - by inversion H; subst.
  - by apply IH in H.
Qed.

Ltac guest_norm :=
  cbv [emit set_ints set_ptmem set_cr2 ptmem ints cr2 pf_callback log].

Ltac store_step :=
  erewrite bind_run by reflexivity; guest_norm;
  rewrite ?entry_at_insert_eq, ?insert_insert_eq.

Ltac fresh_cell :=
  repeat (rewrite entry_at_insert_ne by lia);
  rewrite entry_at_zero_fill, decide_True by (unfold PAGESIZE; lia).

Lemma construct_spec hw b tmp m0 i0 c0 p0 l0 :
  0 <= b < 2 ^ 52 ->
  0 <= tmp -> tmp + 20480 <= 2 ^ 52 -> (exists q, tmp = 4096 * q) ->
  b + 4096 <= tmp \/ tmp + 20480 <= b ->
  heap_alloc hw (5 * PAGESIZE) PAGESIZE = tmp ->
  entry_at m0 (b + 32) = zero_entry ->
  construct hw b (mk_guest m0 i0 c0 p0 l0) =
  Ret tt (mk_guest (built_tables m0 b tmp) (zero_fill tmp (5 * PAGESIZE) i0) c0
            (Some readonly_ptr) (rev (setup_events b tmp) ++ l0)).
Proof.
  intros Hb Ht1 Ht2 [qt Hqt] Hd Ha H4.
  pose proof pow_52_64 as P64.
  assert (Ei4 : idx b 4 = b + 32) by (rewrite idx_eq; lia).
  assert (Ei5 : idx b 5 = b + 40) by (rewrite idx_eq; lia).
  assert (Eu0 : uintptr tmp = tmp) by (rewrite uintptr_eq; lia).
  assert (Eu1 : uintptr (tmp + PAGESIZE) = tmp + 4096)
    by (unfold PAGESIZE; rewrite uintptr_eq; lia).
  assert (Eu2 : uintptr (tmp + 2 * PAGESIZE) = tmp + 8192)
    by (unfold PAGESIZE; rewrite uintptr_eq; lia).
  assert (Eu3 : uintptr (tmp + 3 * PAGESIZE) = tmp + 12288)
    by (unfold PAGESIZE; rewrite uintptr_eq; lia).
  assert (Eu4 : uintptr (tmp + 4 * PAGESIZE) = tmp + 16384)
    by (unfold PAGESIZE; rewrite uintptr_eq; lia).
  assert (Et0 : idx tmp 0 = tmp) by (rewrite idx_eq; lia).
  assert (Et1 : idx tmp 1 = tmp + 8) by (rewrite idx_eq; lia).
  assert (Et2 : idx (tmp + 4096) 0 = tmp + 4096) by (rewrite idx_eq; lia).
  assert (Et3 : idx (tmp + 8192) 0 = tmp + 8192) by (rewrite idx_eq; lia).
  unfold construct.
  erewrite bind_run by reflexivity. erewrite bind_run by reflexivity.
  cbv zeta. rewrite Ha.
  rewrite ?Eu0, ?Eu1, ?Eu2, ?Eu3, ?Eu4, ?Ei4, ?Ei5, ?Et0, ?Et1, ?Et2, ?Et3.
  guest_norm.
  (* pte[4] *)
  store_step.
  rewrite entry_at_zero_fill, decide_False by (unfold PAGESIZE; lia). rewrite H4.
  do 3 store_step.
  (* pte[5] = pte[4] *)
  store_step. do 2 store_step.
  (* the directory *)
  store_step. fresh_cell. do 3 store_step.
  store_step. fresh_cell. do 3 store_step.
  (* the two page tables *)
  store_step. fresh_cell. do 3 store_step.
  store_step. fresh_cell. do 2 store_step.
  erewrite bind_run by reflexivity. guest_norm.
  rewrite ?entry_at_insert_eq, ?insert_insert_eq.
  unfold tst_set_interrupt_callback. guest_norm.
  rewrite Z.eqb_refl.
  unfold built_tables, table_entry.
  cbv [with_present with_writable with_user_access with_address zero_entry
       present writable user_access page_type address attrs].
  rewrite !frame_small by lia.
  reflexivity.
Qed.

Lemma entry_at_built m b tmp a :
  entry_at (built_tables m b tmp) a =
  if decide (tmp + 8192 = a) then table_entry true (tmp + 16384)
  else if decide (tmp + 4096 = a) then table_entry true (tmp + 12288)
  else if decide (tmp + 8 = a) then table_entry true (tmp + 8192)
  else if decide (tmp = a) then table_entry false (tmp + 4096)
  else if decide (b + 40 = a) then table_entry false tmp
  else if decide (b + 32 = a) then table_entry true tmp
  else if decide (tmp <= a < tmp + 5 * PAGESIZE) then zero_entry
  else entry_at m a.
Proof.
  unfold built_tables. by rewrite !entry_at_insert, entry_at_zero_fill.
Qed.

Ltac built_cell :=
  rewrite entry_at_built;
  repeat (rewrite decide_False by (unfold PAGESIZE; lia));
  try (rewrite decide_True by (unfold PAGESIZE; lia)).

(** ** Walking the tables that were built *)

Lemma walk_S inherit l m table va w :
  walk inherit (S l) m table va w =
  let e := entry_at m (table + PTE_SIZE * pt_index (S l) va) in
  if present e then
    let w' := inherit w (writable e) in
    if page_type e then
      if (S l <=? 2)%nat
      then Some (Z.shiftl (address e) 12
                 + Z.land va (Z.shiftl 1 (12 + 9 * Z.of_nat (S l)) - 1), w')
      else None
    else walk inherit l m (Z.shiftl (address e) 12) va w'
  else None.
Proof. reflexivity. Qed.

Lemma walk_O inherit m table va w :
  walk inherit 0 m table va w =
  let e := entry_at m (table + PTE_SIZE * pt_index 0 va) in
  if present e
  then Some (Z.shiftl (address e) 12 + Z.land va (PAGESIZE - 1), inherit w (writable e))
  else None.
Proof. reflexivity. Qed.

Lemma walk_path_S l m table va :
  walk_path (S l) m table va =
  let a := table + PTE_SIZE * pt_index (S l) va in
  let e := entry_at m a in
  (a, e) :: (if present e && negb (page_type e)
             then walk_path l m (Z.shiftl (address e) 12) va else []).
Proof. reflexivity. Qed.

Lemma walk_path_O m table va :
  walk_path 0 m table va =
  [(table + PTE_SIZE * pt_index 0 va, entry_at m (table + PTE_SIZE * pt_index 0 va))].
Proof. reflexivity. Qed.

(** Below 512 GiB every index above the page-directory-pointer level is 0. *)
Lemma pt_index_high lvl va :
  (3 <= lvl)%nat -> 0 <= va < 2 ^ 39 -> pt_index lvl va = 0.
Proof.
  intros Hl Hva. unfold pt_index. rewrite Z.shiftr_div_pow2 by lia.
  rewrite Z.div_small; [done|].
  split; [lia|]. eapply Z.lt_le_trans; [apply Hva|].
  apply Z.pow_le_mono_r; lia.
Qed.

Lemma upper_path_writable m n : forall t b,
  leads_to m n t b = true ->
  map (fun ae => writable ae.2) (upper_path m n t) = replicate n true.
Proof.
  induction n as [|n IH]; intros t b H; [done|].
  destruct (leads_to_step _ _ _ _ H) as (_ & _ & _ & _ & Hw & Hl).
  simpl. rewrite Hw. f_equal. by eapply IH.
Qed.

Section Built.

Context (m : gmap Z page_table_entry_pae) (b tmp : Z).
Context (Hb : table_ok b = true).
Context (Hb0 : present (entry_at m b) = true).
Context (Hheap : heap_ok m tmp = true).

Lemma block_apart : b + 4096 <= tmp \/ tmp + 20480 <= b.
Proof.
  destruct (table_ok_spec _ Hb) as [Hr [qb Hqb]].
  destruct (heap_ok_spec _ _ Hheap) as (Ht1 & Ht2 & [qt Hqt] & Hf).
  destruct (decide (tmp <= b < tmp + 20480)) as [Hin|Hout]; [|lia].
  rewrite (block_fresh_entry m tmp b Hf) in Hb0; [done | unfold PAGESIZE; lia].
Qed.

(** A table of the bootstrap that is in use keeps its first entry. *)
Lemma built_keeps_table t :
  table_ok t = true -> present (entry_at m t) = true ->
  entry_at (built_tables m b tmp) t = entry_at m t.
Proof.
  intros Ht Hp.
  destruct (table_ok_spec _ Hb) as [Hr [qb Hqb]].
  destruct (table_ok_spec _ Ht) as [Hrt [q Hq]].
  destruct (heap_ok_spec _ _ Hheap) as (Ht1 & Ht2 & [qt Hqt] & Hf).
  assert (Hout : ~ (tmp <= t < tmp + 20480)).
  { intros Hin. rewrite (block_fresh_entry m tmp t Hf) in Hp;
      [done | unfold PAGESIZE; lia]. }
  by built_cell.
Qed.

Lemma walk_upper va n : forall t,
  leads_to m n t b = true -> 0 <= va < 2 ^ 39 ->
  walk andb (n + 2) (built_tables m b tmp) t va true =
  walk andb 2 (built_tables m b tmp) b va true.
Proof.
  induction n as [|n IH]; intros t Hl Hva.
  - simpl in Hl. apply andb_prop in Hl as [_ Hl]. apply Z.eqb_eq in Hl. by subst.
  - destruct (leads_to_step _ _ _ _ Hl) as (Ht & _ & Hp & Hpt & Hw & Hl').
    change (S n + 2)%nat with (S (n + 2)). rewrite walk_S.
    rewrite pt_index_high by lia.
    replace (t + PTE_SIZE * 0) with t by (unfold PTE_SIZE; lia).
    cbv zeta. rewrite built_keeps_table by done.
    rewrite Hp, Hpt, Hw. simpl andb. by apply IH.
Qed.

Lemma walk_path_upper va n : forall t,
  leads_to m n t b = true -> 0 <= va < 2 ^ 39 ->
  walk_path (n + 2) (built_tables m b tmp) t va =
  upper_path m n t ++ walk_path 2 (built_tables m b tmp) b va.
Proof.
  induction n as [|n IH]; intros t Hl Hva.
  - simpl in Hl. apply andb_prop in Hl as [_ Hl]. apply Z.eqb_eq in Hl. by subst.
  - destruct (leads_to_step _ _ _ _ Hl) as (Ht & _ & Hp & Hpt & Hw & Hl').
    change (S n + 2)%nat with (S (n + 2)). rewrite walk_path_S.
    rewrite pt_index_high by lia.
    replace (t + PTE_SIZE * 0) with t by (unfold PTE_SIZE; lia).
    cbv zeta. rewrite built_keeps_table by done.
    rewrite Hp, Hpt. simpl. f_equal. by apply IH.
Qed.

End Built.

Lemma table_entry_present w t : present (table_entry w t) = true.
Proof. reflexivity. Qed.
Lemma table_entry_writable w t : writable (table_entry w t) = w.
Proof. reflexivity. Qed.
Lemma table_entry_page_type w t : page_type (table_entry w t) = false.
Proof. reflexivity. Qed.
Lemma table_entry_address w t : address (table_entry w t) = Z.shiftr t 12.
Proof. reflexivity. Qed.

Lemma block_frames tmp :
  0 <= tmp -> (exists q, tmp = 4096 * q) ->
  Z.shiftl (Z.shiftr tmp 12) 12 = tmp /\
  Z.shiftl (Z.shiftr (tmp + 4096) 12) 12 = tmp + 4096 /\
  Z.shiftl (Z.shiftr (tmp + 8192) 12) 12 = tmp + 8192 /\
  Z.shiftl (Z.shiftr (tmp + 12288) 12) 12 = tmp + 12288 /\
  Z.shiftl (Z.shiftr (tmp + 16384) 12) 12 = tmp + 16384.
Proof.
  intros Ht1 [q E].
  repeat split.
  - rewrite E. apply frame_address. lia.
  - replace (tmp + 4096) with (4096 * (q + 1)) by lia. apply frame_address. lia.
  - replace (tmp + 8192) with (4096 * (q + 2)) by lia. apply frame_address. lia.
  - replace (tmp + 12288) with (4096 * (q + 3)) by lia. apply frame_address. lia.
  - replace (tmp + 16384) with (4096 * (q + 4)) by lia. apply frame_address. lia.
Qed.

Section Lower.

Context (m : gmap Z page_table_entry_pae) (b tmp : Z).
Context (Hb : 0 <= b < 2 ^ 52).
Context (Ht1 : 0 <= tmp) (Ht2 : tmp + 20480 <= 2 ^ 52) (Hq : exists q, tmp = 4096 * q).
Context (Hd : b + 4096 <= tmp \/ tmp + 20480 <= b).

Ltac lower_walk i2 i1 :=
  destruct (block_frames tmp Ht1 Hq) as (F0 & F1 & F2 & F3 & F4);
  rewrite ?walk_S, ?walk_path_S; cbv zeta;
  match goal with |- context [pt_index 2 ?va] => change (pt_index 2 va) with i2 end;
  unfold PTE_SIZE;
  built_cell;
  rewrite ?table_entry_present, ?table_entry_page_type, ?table_entry_writable,
    ?table_entry_address, ?F0;
  cbn [andb negb];
  rewrite ?walk_S, ?walk_path_S; cbv zeta;
  match goal with |- context [pt_index 1 ?va] => change (pt_index 1 va) with i1 end;
  unfold PTE_SIZE;
  built_cell;
  rewrite ?table_entry_present, ?table_entry_page_type, ?table_entry_writable,
    ?table_entry_address, ?F1, ?F2;
  cbn [andb negb];
  rewrite ?walk_O, ?walk_path_O; cbv zeta;
  match goal with |- context [pt_index 0 ?va] => change (pt_index 0 va) with 0 end;
  unfold PTE_SIZE;
  built_cell;
  rewrite ?table_entry_present, ?table_entry_page_type, ?table_entry_writable,
    ?table_entry_address, ?F3, ?F4;
  try match goal with
      | |- context [Z.land ?va (PAGESIZE - 1)] =>
          change (Z.land va (PAGESIZE - 1)) with 0; rewrite Z.add_0_r
      end;
  cbn [andb].

Lemma walk_cacher1 :
  walk andb 2 (built_tables m b tmp) b cacher1_ptr true = Some (tmp + 12288, false).
Proof. lower_walk 4 0. reflexivity. Qed.

Lemma walk_writable :
  walk andb 2 (built_tables m b tmp) b writable_ptr true = Some (tmp + 16384, true).
Proof. lower_walk 4 1. reflexivity. Qed.

Lemma walk_cacher2 :
  walk andb 2 (built_tables m b tmp) b cacher2_ptr true = Some (tmp + 12288, false).
Proof. lower_walk 5 0. reflexivity. Qed.

Lemma walk_readonly :
  walk andb 2 (built_tables m b tmp) b readonly_ptr true = Some (tmp + 16384, false).
Proof. lower_walk 5 1. reflexivity. Qed.

Lemma path_cacher1 :
  walk_path 2 (built_tables m b tmp) b cacher1_ptr =
  [(b + 32, table_entry true tmp); (tmp, table_entry false (tmp + 4096));
   (tmp + 4096, table_entry true (tmp + 12288))].
Proof.
  lower_walk 4 0. by rewrite ?Z.mul_0_r, ?Z.add_0_r.
Qed.

Lemma path_writable :
  walk_path 2 (built_tables m b tmp) b writable_ptr =
  [(b + 32, table_entry true tmp); (tmp + 8, table_entry true (tmp + 8192));
   (tmp + 8192, table_entry true (tmp + 16384))].
Proof.
  lower_walk 4 1. by rewrite ?Z.mul_0_r, ?Z.add_0_r.
Qed.

Lemma path_cacher2 :
  walk_path 2 (built_tables m b tmp) b cacher2_ptr =
  [(b + 40, table_entry false tmp); (tmp, table_entry false (tmp + 4096));
   (tmp + 4096, table_entry true (tmp + 12288))].
Proof.
  lower_walk 5 0. by rewrite ?Z.mul_0_r, ?Z.add_0_r.
Qed.

Lemma path_readonly :
  walk_path 2 (built_tables m b tmp) b readonly_ptr =
  [(b + 40, table_entry false tmp); (tmp + 8, table_entry true (tmp + 8192));
   (tmp + 8192, table_entry true (tmp + 16384))].
Proof.
  lower_walk 5 1. by rewrite ?Z.mul_0_r, ?Z.add_0_r.
Qed.

End Lower.

(** ** The standard start *)

Lemma standard_start_facts hw m n b tmp :
  standard_start hw m n b tmp = true -> start_facts hw m n b tmp.
Proof.
  unfold standard_start. intros H.
  apply andb_prop in H as [H Halloc]. apply andb_prop in H as [H Hheap].
  apply andb_prop in H as [Hlma Hlay]. unfold bootstrap_layout in Hlay.
  apply andb_prop in Hlay as [Hlay _]. apply andb_prop in Hlay as [Hlay H4].
  apply andb_prop in Hlay as [Hlay _]. apply andb_prop in Hlay as [Hlay H2].
  apply andb_prop in Hlay as [Hlay H1]. apply andb_prop in Hlay as [Hl H0].
  apply negb_true_iff in Hlma. apply negb_true_iff in H2.
  apply bool_decide_eq_true in H4. apply Z.eqb_eq in Halloc.
  destruct (leads_to_table_ok _ _ _ _ Hl) as [_ Hb].
  destruct (table_ok_spec _ Hb) as [Hr _].
  pose proof pow_52_64.
  assert (E0 : idx b 0 = b) by (rewrite idx_eq; lia).
  assert (E4 : idx b 4 = b + 32) by (rewrite idx_eq; lia).
  rewrite E0 in H0. rewrite E4 in H4.
  destruct (heap_ok_spec _ _ Hheap) as (? & ? & ? & ?).
  constructor; try done.
  by apply block_apart with m.
Qed.

(** From the standard start, [main] arrives at the probe with the tables
    built and the handler registered. *)
Lemma main_reaches_probe hw m n b tmp fuel :
  standard_start hw m n b tmp = true -> (n <= fuel)%nat ->
  main hw fuel (initial_guest m) =
  probe hw fuel
    (mk_guest (built_tables m b tmp) (zero_fill tmp (5 * PAGESIZE) ∅) 0
       (Some readonly_ptr) (rev (setup_events b tmp) ++ [EvRdmsr MSR_EFER])).
Proof.
  intros Hs Hf.
  destruct (standard_start_facts _ _ _ _ _ Hs)
    as [Hlma Hl Hbok Hbr Hb0 Hb1 Hb2 Hb4 Hheap Ht1 Ht2 Htq Hap Hal].
  unfold main, initial_guest.
  erewrite bind_run by reflexivity.
  rewrite Hlma.
  erewrite bind_run by reflexivity.
  erewrite bind_run by (apply find_branch_leads_to with (n := n); done).
  guest_norm.
  erewrite bind_run by (by apply construct_spec).
  reflexivity.
Qed.

(** ** Accesses and faults *)

Lemma guest_load_translated hw fuel va val s pa :
  mmu hw (log s) (ptmem s) Load va = Translated pa ->
  guest_access hw fuel Load va val s =
  Ret (int_at (ints s) pa) (emit (EvLoad va pa) s).
Proof. intros H. destruct fuel; simpl; by rewrite H. Qed.

Lemma guest_store_translated hw fuel va val s pa :
  mmu hw (log s) (ptmem s) Store va = Translated pa ->
  guest_access hw fuel Store va val s =
  Ret val (emit (EvStore va pa val) (set_ints (<[pa := val]> (ints s)) s)).
Proof. intros H. destruct fuel; simpl; by rewrite H. Qed.

(** A fault ends the run: the handler exits with a pass when CR2 is the
    registered address, and default handling takes over otherwise. *)
Lemma guest_access_fault hw fuel k va val s errcode :
  mmu hw (log s) (ptmem s) k va = PageFault errcode ->
  guest_access hw fuel k va val s =
  let s1 := emit (EvFault INTR_PAGE_FAULT va errcode) (set_cr2 va s) in
  match pf_callback s with
  | Some userdata =>
      if va =? uintptr userdata
      then Exited (emit EvExit
                     (emit (EvRes TPASS "KVM enforces memory write permissions") s1))
      else Unhandled s1
  | None => Unhandled s1
  end.
Proof.
  intros H.
  assert (E : guest_access hw fuel k va val s =
              (raise_page_fault va errcode ;;
               match fuel with O => hang | S f => guest_access hw f k va val end) s).
  { destruct fuel; simpl; by rewrite H. }
  rewrite E. unfold bind, raise_page_fault, tst_handle_interrupt.
  cbv zeta. destruct s as [m0 i0 c0 p0 l0]. guest_norm.
  rewrite Z.eqb_refl. destruct p0 as [u|]; [|done].
  unfold handle_page_fault, bind, kvm_read_cregs, tst_res, kvm_exit, ret. guest_norm.
  by destruct (va =? uintptr u).
Qed.

Section OnBuilt.

Context (hw : platform) (m : gmap Z page_table_entry_pae) (n : nat) (b tmp : Z).
Context (Hstart : standard_start hw m n b tmp = true).

Lemma walks_on_built :
  let m' := built_tables m b tmp in
  let root := kvm_pagetable hw in
  walk andb (n + 2) m' root cacher1_ptr true = Some (tmp + 12288, false) /\
  walk andb (n + 2) m' root writable_ptr true = Some (tmp + 16384, true) /\
  walk andb (n + 2) m' root cacher2_ptr true = Some (tmp + 12288, false) /\
  walk andb (n + 2) m' root readonly_ptr true = Some (tmp + 16384, false).
Proof.
  destruct (standard_start_facts _ _ _ _ _ Hstart)
    as [Hlma Hl Hbok Hbr Hb0 Hb1 Hb2 Hb4 Hheap Ht1 Ht2 Htq Hap Hal].
  cbv zeta. rewrite !(walk_upper m b tmp) by (done || by vm_compute).
  rewrite walk_cacher1, walk_writable, walk_cacher2, walk_readonly by done.
  done.
Qed.

(** What the corrected implementation answers on the tables built. *)
Lemma corrected_on_built h :
  let m' := built_tables m b tmp in
  let mmu := corrected_mmu (n + 3) (kvm_pagetable hw) h m' in
  mmu Load cacher1_ptr = Translated (tmp + 12288) /\
  mmu Store writable_ptr = Translated (tmp + 16384) /\
  mmu Load cacher2_ptr = Translated (tmp + 12288) /\
  mmu Store readonly_ptr = PageFault (pf_errcode true Store).
Proof.
  destruct walks_on_built as (W1 & W2 & W3 & W4).
  cbv zeta. unfold corrected_mmu, walking_mmu.
  replace (n + 3 - 1)%nat with (n + 2)%nat by lia.
  by rewrite W1, W2, W3, W4.
Qed.

End OnBuilt.

(** ** The verdicts *)

(** C1 (as amended).  From the standard start, on the corrected
    implementation and with fuel for the search, the three warming accesses
    go through, the probing write through [readonly_ptr] raises the one and
    only page fault of the run, reported at [readonly_ptr] as a write
    protection fault, the handler reports TPASS with the message
    "KVM enforces memory write permissions" and the guest exits: the probing
    write is never performed and TFAIL is never reported. *)
Theorem corrected_run_passes hw m n b tmp fuel :
  standard_start hw m n b tmp = true ->
  mmu hw = corrected_mmu (n + 3) (kvm_pagetable hw) ->
  (n <= fuel)%nat ->
  exists s,
    main hw fuel (initial_guest m) = Exited s /\
    faults (trace s) = [(readonly_ptr, pf_errcode true Store)] /\
    cr2 s = readonly_ptr /\
    results (trace s) = [(TPASS, "KVM enforces memory write permissions"%string)] /\
    accesses (trace s) = [(Load, cacher1_ptr); (Store, writable_ptr); (Load, cacher2_ptr)] /\
    last (trace s) = Some EvExit.
Proof.
  intros Hs Hm Hf.
  rewrite (main_reaches_probe hw m n b tmp) by done.
  unfold probe.
  erewrite bind_run.
  2:{ apply guest_load_translated. rewrite Hm. guest_norm.
      apply (corrected_on_built hw m n b tmp Hs). }
  guest_norm.
  erewrite bind_run.
  2:{ apply guest_store_translated. rewrite Hm. guest_norm.
      apply (corrected_on_built hw m n b tmp Hs). }
  guest_norm.
  erewrite bind_run.
  2:{ apply guest_load_translated. rewrite Hm. guest_norm.
      apply (corrected_on_built hw m n b tmp Hs). }
  guest_norm.
  unfold bind at 1.
  erewrite guest_access_fault.
  2:{ rewrite Hm. guest_norm. apply (corrected_on_built hw m n b tmp Hs). }
  cbv zeta. guest_norm.
  change (readonly_ptr =? uintptr readonly_ptr) with true. cbv iota.
  eexists. split; [reflexivity|].
  unfold trace. guest_norm.
  repeat split; reflexivity.
Qed.

Lemma corrected_run_passes_witness :
  exists s,
    main Example.fixed 1 (initial_guest Example.boot_tables) = Exited s /\
    faults (trace s) = [(readonly_ptr, pf_errcode true Store)] /\
    cr2 s = readonly_ptr /\
    results (trace s) = [(TPASS, "KVM enforces memory write permissions"%string)] /\
    accesses (trace s) = [(Load, cacher1_ptr); (Store, writable_ptr); (Load, cacher2_ptr)] /\
    last (trace s) = Some EvExit.
Proof.
  apply (corrected_run_passes Example.fixed Example.boot_tables 1
           Example.pdpt Example.heap 1).
  - vm_compute. reflexivity.
  - reflexivity.
  - lia.
Defined.

(** The message the spec quotes for the pass is not the one reported. *)
Lemma corrected_run_message_differs :
  reported (main Example.fixed 1 (initial_guest Example.boot_tables))
    TPASS "enforces memory write permissions" = false /\
  reported (main Example.fixed 1 (initial_guest Example.boot_tables))
    TPASS "KVM enforces memory write permissions" = true.
Proof. split; vm_compute; reflexivity. Qed.

Lemma leaf_only_permits lvl : forall m t va w w' pa p,
  walk andb lvl m t va w = Some (pa, p) ->
  exists p', walk leaf_only lvl m t va w' = Some (pa, p') /\ (p = true -> p' = true).
Proof.
  induction lvl as [|l IH]; intros m t va w w' pa p.
  - rewrite !walk_O. cbv zeta.
    destruct (present _); [|done]. intros [= <- <-].
    eexists; split; [reflexivity|]. unfold leaf_only. by intros [_ ?]%andb_prop.
  - rewrite !walk_S. cbv zeta.
    destruct (present _); [|done].
    destruct (page_type _).
    + destruct (S l <=? 2)%nat; [|done]. intros [= <- <-].
      eexists; split; [reflexivity|]. unfold leaf_only. by intros [_ ?]%andb_prop.
    + apply IH.
Qed.

Lemma defective_honours levels root h m k va pa :
  corrected_mmu levels root h m k va = Translated pa ->
  defective_mmu levels root h m k va = Translated pa.
Proof.
  unfold corrected_mmu, defective_mmu, walking_mmu.
  destruct (walk andb _ _ _ _ _) as [[pa0 p]|] eqn:E; [|done].
  destruct (leaf_only_permits _ _ _ _ _ true _ _ E) as (p' & -> & Hp).
  destruct k; [done|].
  destruct p; [|done]. by rewrite Hp.
Qed.

(** C2 (as amended).  From the standard start, on an implementation that
    honours what the architecture permits but lets the probing write
    through after the warming accesses, no page fault is raised, the four
    accesses are made in order, execution reaches the last statement of
    [main], which reports TFAIL with the message
    "Write to read-only address did not page fault", and [main] returns. *)
Theorem defective_run_fails hw m n b tmp fuel :
  standard_start hw m n b tmp = true ->
  honours_permitted hw (n + 3) ->
  misses_probe_fault hw (built_tables m b tmp) ->
  (n <= fuel)%nat ->
  exists s,
    main hw fuel (initial_guest m) = Ret tt s /\
    faults (trace s) = [] /\
    accesses (trace s) = probe_accesses /\
    results (trace s) =
      [(TFAIL, "Write to read-only address did not page fault"%string)] /\
    last (trace s) =
      Some (EvRes TFAIL "Write to read-only address did not page fault").
Proof.
  intros Hs Hh Hd Hf.
  rewrite (main_reaches_probe hw m n b tmp) by done.
  unfold probe.
  erewrite bind_run.
  2:{ apply guest_load_translated. guest_norm. apply Hh.
      apply (corrected_on_built hw m n b tmp Hs). }
  guest_norm.
  erewrite bind_run.
  2:{ apply guest_store_translated. guest_norm. apply Hh.
      apply (corrected_on_built hw m n b tmp Hs). }
  guest_norm.
  erewrite bind_run.
  2:{ apply guest_load_translated. guest_norm. apply Hh.
      apply (corrected_on_built hw m n b tmp Hs). }
  guest_norm.
  match goal with
  | |- context [bind (guest_access hw fuel Store readonly_ptr ?v) _
                  (mk_guest ?pt ?i ?c ?p ?l)] =>
      destruct (Hd l) as [pa Hpa]; [reflexivity|];
      rewrite (bind_run _ _ _ _ _
                 (guest_store_translated hw fuel readonly_ptr v
                    (mk_guest pt i c p l) pa Hpa))
  end.
  guest_norm. unfold tst_res. guest_norm.
  eexists. split; [reflexivity|].
  unfold trace. guest_norm.
  repeat split; reflexivity.
Qed.

Lemma defective_run_fails_witness :
  exists s,
    main Example.vulnerable 1 (initial_guest Example.boot_tables) = Ret tt s /\
    faults (trace s) = [] /\
    accesses (trace s) = probe_accesses /\
    results (trace s) =
      [(TFAIL, "Write to read-only address did not page fault"%string)] /\
    last (trace s) =
      Some (EvRes TFAIL "Write to read-only address did not page fault").
Proof.
  apply (defective_run_fails Example.vulnerable Example.boot_tables 1
           Example.pdpt Example.heap 1).
  - vm_compute. reflexivity.
  - intros h m k va pa. apply (defective_honours 4 Example.root).
  - intros h _. eexists. vm_compute. reflexivity.
  - lia.
Defined.

(** The message the spec quotes for the failure is not the one reported. *)
Lemma defective_run_message_differs :
  reported (main Example.vulnerable 1 (initial_guest Example.boot_tables))
    TFAIL "write to read-only address did not page fault" = false /\
  reported (main Example.vulnerable 1 (initial_guest Example.boot_tables))
    TFAIL "Write to read-only address did not page fault" = true.
Proof. split; vm_compute; reflexivity. Qed.

(** ** What a run of the probe can look like *)

Lemma ext_nil (l : list event) : l = [] ++ l.
Proof. reflexivity. Qed.

Lemma ext_cons (e : event) d l l' : l' = d ++ l -> e :: l' = (e :: d) ++ l.
Proof. by intros ->. Qed.

Ltac ext_log := repeat first [apply ext_nil | apply ext_cons].

Ltac guest_norm_in F :=
  cbv [emit set_ints set_ptmem set_cr2 ptmem ints cr2 pf_callback log] in F.

(* Closes a case of [probe_outcome] once the run of the case is known. *)
Ltac probe_leaf :=
  guest_norm; do 2 eexists;
  split; [reflexivity|]; split; [guest_norm; ext_log|];
  split; [reflexivity|]; split; [reflexivity|]; split; [reflexivity|];
  split; [by eexists|];
  split; [first [ left; reflexivity
                | right; do 3 eexists; split; [reflexivity | by eexists] ]
         | done].

(* A faulting access: the handler exits, or default handling takes over. *)
Ltac probe_fault E :=
  match goal with
  | |- context [bind (guest_access ?hw ?fuel ?k ?va ?v) _ (mk_guest ?pt ?i ?c ?p ?l)] =>
      let F := fresh "F" in
      pose proof (guest_access_fault hw fuel k va v (mk_guest pt i c p l) _ E) as F;
      cbv zeta in F; guest_norm_in F;
      (destruct p as [u|]; [destruct (va =? uintptr u)|]);
      first [ rewrite (bind_exited _ _ _ _ F) | rewrite (bind_unhandled _ _ _ _ F) ]
  end; probe_leaf.

(** Whatever the MMU answers, the probe ends (it cannot hang), it leaves
    the page tables alone, and the accesses it has made by then are the
    first ones of [probe_accesses], all four when it returns; at most one
    access faults, and it is the one next in [probe_accesses]. *)
Lemma probe_outcome hw fuel s :
  exists s' d,
    final (probe hw fuel s) = Some s' /\
    log s' = d ++ log s /\
    ptmem s' = ptmem s /\
    mutations (rev d) = [] /\
    allocations (rev d) = [] /\
    accesses (rev d) `prefix_of` probe_accesses /\
    (faults (rev d) = [] \/
     exists a c k, faults (rev d) = [(a, c)] /\
                   (accesses (rev d) ++ [(k, a)]) `prefix_of` probe_accesses) /\
    (forall s'', probe hw fuel s = Ret tt s'' -> accesses (rev d) = probe_accesses).
Proof.
  destruct s as [m0 i0 c0 p0 l0]. unfold probe.
  destruct (mmu hw l0 m0 Load cacher1_ptr) as [pa1|ec] eqn:E1.
  2:{ probe_fault E1. }
  rewrite (bind_run _ _ _ _ _
             (guest_load_translated hw fuel _ 0 (mk_guest m0 i0 c0 p0 l0) _ E1)).
  guest_norm.
  match goal with
  | |- context [bind (guest_access hw fuel Store writable_ptr ?v) _
                  (mk_guest ?pt ?i ?c ?p ?l)] =>
      destruct (mmu hw l pt Store writable_ptr) as [pa2|ec] eqn:E2;
      [ rewrite (bind_run _ _ _ _ _
                   (guest_store_translated hw fuel _ v (mk_guest pt i c p l) _ E2))
      | probe_fault E2 ]
  end.
  guest_norm.
  match goal with
  | |- context [bind (guest_access hw fuel Load cacher2_ptr ?v) _
                  (mk_guest ?pt ?i ?c ?p ?l)] =>
      destruct (mmu hw l pt Load cacher2_ptr) as [pa3|ec] eqn:E3;
      [ rewrite (bind_run _ _ _ _ _
                   (guest_load_translated hw fuel _ v (mk_guest pt i c p l) _ E3))
      | probe_fault E3 ]
  end.
  guest_norm.
  match goal with
  | |- context [bind (guest_access hw fuel Store readonly_ptr ?v) _
                  (mk_guest ?pt ?i ?c ?p ?l)] =>
      destruct (mmu hw l pt Store readonly_ptr) as [pa4|ec] eqn:E4;
      [ rewrite (bind_run _ _ _ _ _
                   (guest_store_translated hw fuel _ v (mk_guest pt i c p l) _ E4))
      | probe_fault E4 ]
  end.
  guest_norm. unfold tst_res. probe_leaf.
Qed.

(** ** Code that neither accesses the new mapping nor reports *)

Lemma quiet_bind {A B} (c : M A) (k : A -> M B) :
  quiet c -> (forall a, quiet (k a)) -> quiet (x <- c ;; k x).
Proof.
  intros Hc Hk s.
  destruct (Hc s) as (a & s1 & d1 & E1 & L1 & A1 & F1 & R1).
  destruct (Hk a s1) as (a2 & s2 & d2 & E2 & L2 & A2 & F2 & R2).
  exists a2, s2, (d2 ++ d1). unfold bind. rewrite E1, E2, L2, L1.
  split; [done|]. split; [by rewrite app_assoc|].
  unfold accesses, faults, results in *.
  rewrite rev_app_distr, !omap_app. by rewrite A1, A2, F1, F2, R1, R2.
Qed.

Lemma quiet_ret {A} (a : A) : quiet (ret a).
Proof. intros s. exists a, s, []. by repeat split. Qed.

Lemma quiet_store_entry a f : quiet (store_entry a f).
Proof. intros s. exists tt. eexists. exists [EvPteStore a]. by repeat split. Qed.

Lemma quiet_load_entry a : quiet (load_entry a).
Proof. intros s. eexists. exists s, []. by repeat split. Qed.

Lemma quiet_memset p len : quiet (memset p len).
Proof. intros s. exists tt. eexists. exists [EvMemset p len]. by repeat split. Qed.

Lemma quiet_alloc hw size align : quiet (tst_heap_alloc_aligned hw size align).
Proof.
  intros s. do 2 eexists. exists [EvAlloc size align (heap_alloc hw size align)].
  by repeat split.
Qed.

Lemma quiet_set_callback v u : quiet (tst_set_interrupt_callback v u).
Proof. intros s. exists tt. eexists. exists [EvSetCallback v u]. by repeat split. Qed.

Lemma quiet_construct hw pte : quiet (construct hw pte).
Proof.
  unfold construct.
  repeat match goal with
         | |- quiet (bind _ _) => apply quiet_bind; [|intros ?; cbv zeta]
         | |- quiet (store_entry _ _) => apply quiet_store_entry
         | |- quiet (load_entry _) => apply quiet_load_entry
         | |- quiet (memset _ _) => apply quiet_memset
         | |- quiet (tst_heap_alloc_aligned _ _ _) => apply quiet_alloc
         | |- quiet (tst_set_interrupt_callback _ _) => apply quiet_set_callback
         end.
Qed.

Lemma find_branch_total : forall fuel t s,
  find_branch fuel t s = Hung \/ exists b, find_branch fuel t s = Ret b s.
Proof.
  induction fuel as [|fuel IH]; intros t s; simpl;
    destruct (present (entry_at (ptmem s) (idx t 1))); eauto.
Qed.

(** C7.  In every run of [main] that ends, the trace splits in two: a
    first part without any access through the new mapping, and a second
    part without any store to page-table memory, whose accesses are, in
    this order, the read through [cacher1_ptr], the write through
    [writable_ptr], the read through [cacher2_ptr] and the write through
    [readonly_ptr], cut short only where a fault ended the run, the fault
    being at the access next in this order; when [main] returns all four
    have been made. *)
Theorem accesses_follow_setup hw fuel s0 s :
  final (main hw fuel s0) = Some s ->
  exists pre post,
    trace s = trace s0 ++ pre ++ post /\
    accesses pre = [] /\
    mutations post = [] /\
    accesses post `prefix_of` probe_accesses /\
    (faults post = [] \/
     exists a c k, faults post = [(a, c)] /\
                   (accesses post ++ [(k, a)]) `prefix_of` probe_accesses) /\
    (forall s', main hw fuel s0 = Ret tt s' -> accesses post = probe_accesses).
Proof.
  unfold main. erewrite bind_run by reflexivity.
  destruct (Z.land (rdmsr hw MSR_EFER) EFER_LMA =? 0).
  - cbn. intros [= <-].
    exists [EvRdmsr MSR_EFER;
            EvRes TBROK "Bootstrap did not enable 64bit paging"; EvExit], [].
    unfold trace. cbn. rewrite <- !app_assoc.
    repeat split; try done; [by eexists | by left].
  - erewrite bind_run by reflexivity.
    destruct (find_branch_total fuel (kvm_pagetable hw) (emit (EvRdmsr MSR_EFER) s0))
      as [E|[b E]].
    + unfold bind at 1. by rewrite E.
    + erewrite bind_run by exact E.
      destruct (quiet_construct hw b (emit (EvRdmsr MSR_EFER) s0))
        as ([] & s1 & d1 & E1 & L1 & A1 & _).
      erewrite bind_run by exact E1.
      destruct (probe_outcome hw fuel s1) as (s2 & d2 & F2 & L2 & _ & M2 & _ & P2 & Fa2 & R2).
      rewrite F2. intros [= <-].
      exists (EvRdmsr MSR_EFER :: rev d1), (rev d2).
      unfold trace. rewrite L2, L1. cbn [emit log].
      rewrite !rev_app_distr. cbn [rev]. rewrite <- !app_assoc. cbn [app].
      repeat split; try done.
Qed.

Lemma accesses_follow_setup_witness :
  exists pre post,
    trace Example.vulnerable_end =
      trace (initial_guest Example.boot_tables) ++ pre ++ post /\
    accesses pre = [] /\
    mutations post = [] /\
    accesses post `prefix_of` probe_accesses /\
    (faults post = [] \/
     exists a c k, faults post = [(a, c)] /\
                   (accesses post ++ [(k, a)]) `prefix_of` probe_accesses) /\
    (forall s', main Example.vulnerable 1 (initial_guest Example.boot_tables) = Ret tt s' ->
                accesses post = probe_accesses).
Proof.
  apply (accesses_follow_setup Example.vulnerable 1 (initial_guest Example.boot_tables)).
  vm_compute. reflexivity.
Defined.

(** ** The page tables a run ends with *)

(** From the standard start every run that ends has built the tables of
    [built_tables], whatever the MMU did during the probe, and its trace
    begins with the MSR read and the events of [construct]. *)
Lemma main_tables hw m n b tmp fuel s :
  standard_start hw m n b tmp = true -> (n <= fuel)%nat ->
  final (main hw fuel (initial_guest m)) = Some s ->
  ptmem s = built_tables m b tmp /\
  exists post,
    trace s = EvRdmsr MSR_EFER :: setup_events b tmp ++ post /\
    mutations post = [] /\ allocations post = [].
Proof.
  intros Hs Hf. rewrite (main_reaches_probe hw m n b tmp) by done.
  match goal with |- final (probe hw fuel ?s1) = _ -> _ =>
    destruct (probe_outcome hw fuel s1) as (s2 & d & F & L & P & Mu & Al & _)
  end.
  rewrite F. intros [= <-]. split; [exact P|].
  exists (rev d). unfold trace. rewrite L. guest_norm.
  rewrite !rev_app_distr, rev_involutive. by rewrite <- app_assoc.
Qed.

(** C9.  From the standard start, in the tables a run ends with: entry 5
    of the branching table is entry 4 with the writable flag cleared and
    nothing else changed, entry 4 being writable and both pointing at the
    first page of the block; entries 4 and 5 are the ones the windows at
    [cacher1_ptr] and [cacher2_ptr] go through; below them the walks of the
    two windows go through the very same entries; and the processor's walk
    resolves [writable_ptr] and [readonly_ptr] to the fifth page of the
    block, [cacher1_ptr] and [cacher2_ptr] to the fourth. *)
Theorem aliased_windows hw m n b tmp fuel s :
  standard_start hw m n b tmp = true -> (n <= fuel)%nat ->
  final (main hw fuel (initial_guest m)) = Some s ->
  let m' := ptmem s in
  let root := kvm_pagetable hw in
  entry_at m' (idx b 5) = with_writable false (entry_at m' (idx b 4)) /\
  writable (entry_at m' (idx b 4)) = true /\
  kvm_get_page_address_pae (entry_at m' (idx b 4)) = tmp /\
  kvm_get_page_address_pae (entry_at m' (idx b 5)) = tmp /\
  (pt_index 2 cacher1_ptr = 4 /\ pt_index 2 writable_ptr = 4 /\
   pt_index 2 cacher2_ptr = 5 /\ pt_index 2 readonly_ptr = 5) /\
  drop 1 (walk_path 2 m' b writable_ptr) = drop 1 (walk_path 2 m' b readonly_ptr) /\
  drop 1 (walk_path 2 m' b cacher1_ptr) = drop 1 (walk_path 2 m' b cacher2_ptr) /\
  walk andb (n + 2) m' root writable_ptr true = Some (tmp + 4 * PAGESIZE, true) /\
  walk andb (n + 2) m' root readonly_ptr true = Some (tmp + 4 * PAGESIZE, false) /\
  walk andb (n + 2) m' root cacher1_ptr true = Some (tmp + 3 * PAGESIZE, false) /\
  walk andb (n + 2) m' root cacher2_ptr true = Some (tmp + 3 * PAGESIZE, false).
Proof.
  intros Hs Hf Hfin.
  destruct (main_tables _ _ _ _ _ _ _ Hs Hf Hfin) as (Hpt & _).
  destruct (walks_on_built hw m n b tmp Hs) as (W1 & W2 & W3 & W4).
  destruct (standard_start_facts _ _ _ _ _ Hs)
    as [Hlma Hl Hbok Hbr Hb0 Hb1 Hb2 Hb4 Hheap Ht1 Ht2 Htq Hap Hal].
  pose proof pow_52_64.
  destruct (block_frames tmp Ht1 Htq) as (F0 & _).
  assert (E4 : idx b 4 = b + 32) by (rewrite idx_eq; lia).
  assert (E5 : idx b 5 = b + 40) by (rewrite idx_eq; lia).
  cbv zeta. rewrite Hpt, E4, E5.
  assert (C4 : entry_at (built_tables m b tmp) (b + 32) = table_entry true tmp)
    by (by built_cell).
  assert (C5 : entry_at (built_tables m b tmp) (b + 40) = table_entry false tmp)
    by (by built_cell).
  rewrite C4, C5.
  rewrite path_cacher1, path_writable, path_cacher2, path_readonly by done.
  unfold kvm_get_page_address_pae.
  rewrite !table_entry_present, !table_entry_address, F0.
  rewrite W1, W2, W3, W4.
  repeat split; reflexivity.
Qed.

Lemma aliased_windows_witness :
  let m' := ptmem Example.vulnerable_end in
  let root := kvm_pagetable Example.vulnerable in
  let b := Example.pdpt in
  let tmp := Example.heap in
  entry_at m' (idx b 5) = with_writable false (entry_at m' (idx b 4)) /\
  writable (entry_at m' (idx b 4)) = true /\
  kvm_get_page_address_pae (entry_at m' (idx b 4)) = tmp /\
  kvm_get_page_address_pae (entry_at m' (idx b 5)) = tmp /\
  (pt_index 2 cacher1_ptr = 4 /\ pt_index 2 writable_ptr = 4 /\
   pt_index 2 cacher2_ptr = 5 /\ pt_index 2 readonly_ptr = 5) /\
  drop 1 (walk_path 2 m' b writable_ptr) = drop 1 (walk_path 2 m' b readonly_ptr) /\
  drop 1 (walk_path 2 m' b cacher1_ptr) = drop 1 (walk_path 2 m' b cacher2_ptr) /\
  walk andb (1 + 2) m' root writable_ptr true = Some (tmp + 4 * PAGESIZE, true) /\
  walk andb (1 + 2) m' root readonly_ptr true = Some (tmp + 4 * PAGESIZE, false) /\
  walk andb (1 + 2) m' root cacher1_ptr true = Some (tmp + 3 * PAGESIZE, false) /\
  walk andb (1 + 2) m' root cacher2_ptr true = Some (tmp + 3 * PAGESIZE, false).
Proof.
  apply (aliased_windows Example.vulnerable Example.boot_tables 1
           Example.pdpt Example.heap 1).
  - vm_compute. reflexivity.
  - lia.
  - vm_compute. reflexivity.
Defined.

(** C5 (as amended).  From the standard start, in the tables a run ends
    with, the walk for [readonly_ptr] finds the entries above the branching
    table writable, the entry of the branching table read-only, and the two
    entries below it, the leaf included, writable; the walk for
    [writable_ptr] finds every entry writable; and both walks end in the
    same leaf entry, so the two windows differ in the writable flag at the
    branching table only. *)
Theorem readonly_chain hw m n b tmp fuel s :
  standard_start hw m n b tmp = true -> (n <= fuel)%nat ->
  final (main hw fuel (initial_guest m)) = Some s ->
  let m' := ptmem s in
  let root := kvm_pagetable hw in
  map (fun ae => writable ae.2) (walk_path (n + 2) m' root readonly_ptr)
    = replicate n true ++ [false; true; true] /\
  map (fun ae => writable ae.2) (walk_path (n + 2) m' root writable_ptr)
    = replicate n true ++ [true; true; true] /\
  last (walk_path (n + 2) m' root readonly_ptr)
    = Some (tmp + 2 * PAGESIZE, table_entry true (tmp + 4 * PAGESIZE)) /\
  last (walk_path (n + 2) m' root writable_ptr)
    = Some (tmp + 2 * PAGESIZE, table_entry true (tmp + 4 * PAGESIZE)) /\
  spec_nonleaf_writable_leaf_readonly (walk_path (n + 2) m' root readonly_ptr) = false.
Proof.
  intros Hs Hf Hfin.
  destruct (main_tables _ _ _ _ _ _ _ Hs Hf Hfin) as (Hpt & _).
  destruct (standard_start_facts _ _ _ _ _ Hs)
    as [Hlma Hl Hbok Hbr Hb0 Hb1 Hb2 Hb4 Hheap Ht1 Ht2 Htq Hap Hal].
  cbv zeta. rewrite Hpt.
  rewrite !(walk_path_upper m b tmp) by (done || by vm_compute).
  rewrite path_readonly, path_writable by done.
  rewrite !map_app, (upper_path_writable m n _ b) by done.
  unfold spec_nonleaf_writable_leaf_readonly.
  rewrite rev_app_distr, !last_app.
  repeat split; reflexivity.
Qed.

Lemma readonly_chain_witness :
  let m' := ptmem Example.vulnerable_end in
  let root := kvm_pagetable Example.vulnerable in
  let tmp := Example.heap in
  map (fun ae => writable ae.2) (walk_path (1 + 2) m' root readonly_ptr)
    = replicate 1 true ++ [false; true; true] /\
  map (fun ae => writable ae.2) (walk_path (1 + 2) m' root writable_ptr)
    = replicate 1 true ++ [true; true; true] /\
  last (walk_path (1 + 2) m' root readonly_ptr)
    = Some (tmp + 2 * PAGESIZE, table_entry true (tmp + 4 * PAGESIZE)) /\
  last (walk_path (1 + 2) m' root writable_ptr)
    = Some (tmp + 2 * PAGESIZE, table_entry true (tmp + 4 * PAGESIZE)) /\
  spec_nonleaf_writable_leaf_readonly (walk_path (1 + 2) m' root readonly_ptr) = false.
Proof.
  apply (readonly_chain Example.vulnerable Example.boot_tables 1
           Example.pdpt Example.heap 1).
  - vm_compute. reflexivity.
  - lia.
  - vm_compute. reflexivity.
Defined.

(** On the example machine the chain of [readonly_ptr] is not the one the
    spec describes: its leaf is writable, and the entry that is read-only is
    not the leaf but the one of the branching table. *)
Lemma readonly_leaf_is_writable :
  let path := walk_path 3 (ptmem Example.vulnerable_end) Example.root readonly_ptr in
  spec_nonleaf_writable_leaf_readonly path = false /\
  map (fun ae => writable ae.2) path = [true; false; true; true] /\
  last path = last (walk_path 3 (ptmem Example.vulnerable_end) Example.root writable_ptr).
Proof. vm_compute. by repeat split. Qed.

(** ** The branch point *)

(** C4 (as amended).  From the standard start, with fuel for the [n]
    levels above it, the search ends at the table [b] reached through the
    first entries, the first table whose second entry is present; its third
    entry, unmapped at the start, is still what it was when the run ends,
    and the new entries are the fifth and the sixth.  Whatever the memory,
    a table the search returns has its second entry present. *)
Theorem branch_search_terminates hw m n b tmp fuel :
  standard_start hw m n b tmp = true -> (n <= fuel)%nat ->
  find_branch fuel (kvm_pagetable hw) (initial_guest m) = Ret b (initial_guest m) /\
  present (entry_at m (idx b 1)) = true /\
  present (entry_at m (idx b 2)) = false /\
  (forall s, final (main hw fuel (initial_guest m)) = Some s ->
     entry_at (ptmem s) (idx b 2) = entry_at m (idx b 2) /\
     entry_at (ptmem s) (idx b 4) = table_entry true tmp /\
     entry_at (ptmem s) (idx b 5) = table_entry false tmp) /\
  (forall fuel' t b' s s', find_branch fuel' t s = Ret b' s' ->
     present (entry_at (ptmem s) (idx b' 1)) = true).
Proof.
  intros Hs Hf.
  destruct (standard_start_facts _ _ _ _ _ Hs)
    as [Hlma Hl Hbok Hbr Hb0 Hb1 Hb2 Hb4 Hheap Ht1 Ht2 Htq Hap Hal].
  split; [by apply find_branch_leads_to with (n := n)|].
  split; [done|]. split; [done|].
  split; [|by intros fuel' t b' s s' [_ ?]%find_branch_second_present].
  intros s Hfin.
  destruct (main_tables _ _ _ _ _ _ _ Hs Hf Hfin) as (Hpt & _).
  pose proof pow_52_64.
  assert (E2 : idx b 2 = b + 16) by (rewrite idx_eq; lia).
  assert (E4 : idx b 4 = b + 32) by (rewrite idx_eq; lia).
  assert (E5 : idx b 5 = b + 40) by (rewrite idx_eq; lia).
  rewrite Hpt, E2, E4, E5.
  repeat split; by built_cell.
Qed.

Lemma branch_search_terminates_witness :
  find_branch 1 (kvm_pagetable Example.fixed) (initial_guest Example.boot_tables)
    = Ret Example.pdpt (initial_guest Example.boot_tables) /\
  present (entry_at Example.boot_tables (idx Example.pdpt 1)) = true /\
  present (entry_at Example.boot_tables (idx Example.pdpt 2)) = false /\
  (forall s, final (main Example.fixed 1 (initial_guest Example.boot_tables)) = Some s ->
     entry_at (ptmem s) (idx Example.pdpt 2)
       = entry_at Example.boot_tables (idx Example.pdpt 2) /\
     entry_at (ptmem s) (idx Example.pdpt 4) = table_entry true Example.heap /\
     entry_at (ptmem s) (idx Example.pdpt 5) = table_entry false Example.heap) /\
  (forall fuel' t b' s s', find_branch fuel' t s = Ret b' s' ->
     present (entry_at (ptmem s) (idx b' 1)) = true).
Proof.
  apply (branch_search_terminates Example.fixed Example.boot_tables 1
           Example.pdpt Example.heap 1).
  - vm_compute. reflexivity.
  - lia.
Defined.

(** On the example machine the table the search selects has its second
    entry present, not absent, and the run never stores to the entry of the
    third region: its stores into that table go to entries 4 and 5. *)
Lemma branch_has_second_entry :
  find_branch 1 Example.root (initial_guest Example.boot_tables)
    = Ret Example.pdpt (initial_guest Example.boot_tables) /\
  present (entry_at Example.boot_tables (idx Example.pdpt 1)) = true /\
  bool_decide (EvPteStore (idx Example.pdpt 2) ∈ trace Example.fixed_end) = false /\
  bool_decide (EvPteStore (idx Example.pdpt 4) ∈ trace Example.fixed_end) = true /\
  bool_decide (EvPteStore (idx Example.pdpt 5) ∈ trace Example.fixed_end) = true /\
  main Example.fixed 1 (initial_guest Example.boot_tables) = Exited Example.fixed_end.
Proof. vm_compute. by repeat split. Qed.

(** Without the bootstrap's tables the search does not end: on empty
    memory it stays at address 0 whatever the fuel. *)
Lemma find_branch_hangs_on_empty_memory fuel :
  find_branch fuel 0 (initial_guest ∅) = Hung.
Proof. induction fuel as [|fuel IH]; [done|]. exact IH. Qed.

(** ** The handler *)

(** C3 (as amended).  The handler decides by the faulting address alone:
    when CR2 is the registered address it reports TPASS and exits the
    guest, and otherwise it reports nothing, changes nothing and returns 0
    for default handling; the error code plays no part.  So a page fault
    raised with the handler registered ends in a pass when its address is
    the registered one and in default handling when it is any other. *)
Theorem handle_page_fault_by_address userdata errcode s :
  handle_page_fault userdata errcode s =
    (if cr2 s =? uintptr userdata
     then Exited (emit EvExit
                    (emit (EvRes TPASS "KVM enforces memory write permissions") s))
     else Ret 0 s) /\
  handle_page_fault userdata errcode s = handle_page_fault userdata 0 s /\
  (forall va m i c l,
     let s1 := mk_guest m i va (Some userdata)
                 (EvFault INTR_PAGE_FAULT va errcode :: l) in
     raise_page_fault va errcode (mk_guest m i c (Some userdata) l) =
       if va =? uintptr userdata
       then Exited (emit EvExit
                      (emit (EvRes TPASS "KVM enforces memory write permissions") s1))
       else Unhandled s1).
Proof.
  split; [|split].
  - unfold handle_page_fault, bind, kvm_read_cregs, tst_res, kvm_exit, ret.
    by destruct (cr2 s =? uintptr userdata).
  - reflexivity.
  - intros va m i c l. cbv zeta.
    unfold raise_page_fault, tst_handle_interrupt, handle_page_fault, bind,
      kvm_read_cregs, tst_res, kvm_exit, ret.
    guest_norm. rewrite Z.eqb_refl.
    by destruct (va =? uintptr userdata).
Qed.

(** A fault at the registered address that is not a write to a page that
    is present (error code 0: a read of a page that is not present) is
    handled all the same, with a pass. *)
Lemma wrong_error_code_passes :
  let s := set_cr2 readonly_ptr (initial_guest ∅) in
  pf_errcode false Load <> pf_errcode true Store /\
  handle_page_fault readonly_ptr (pf_errcode false Load) s =
    Exited (emit EvExit (emit (EvRes TPASS "KVM enforces memory write permissions") s)) /\
  reported (handle_page_fault readonly_ptr (pf_errcode false Load) s)
    TPASS "KVM enforces memory write permissions" = true.
Proof. vm_compute. by repeat split. Qed.

(** ** No long mode *)

(** C6.  When the long-mode-active bit of EFER is clear, [main] reports
    TBROK and exits the guest right after reading the MSR: nothing is
    allocated, no entry is stored, no access is made through the new
    mapping, no handler is registered, and neither TPASS nor TFAIL is
    reported. *)
Theorem no_long_mode_aborts hw fuel s0 :
  Z.land (rdmsr hw MSR_EFER) EFER_LMA = 0 ->
  exists s,
    main hw fuel s0 = Exited s /\
    trace s = trace s0 ++
      [EvRdmsr MSR_EFER; EvRes TBROK "Bootstrap did not enable 64bit paging"; EvExit] /\
    ptmem s = ptmem s0 /\ ints s = ints s0 /\ pf_callback s = pf_callback s0.
Proof.
  intros H. unfold main. erewrite bind_run by reflexivity.
  rewrite H. cbn. eexists. split; [reflexivity|].
  unfold trace. cbn. by rewrite <- !app_assoc.
Qed.

Lemma no_long_mode_aborts_witness :
  exists s,
    main Example.no_long_mode 0 (initial_guest Example.boot_tables) = Exited s /\
    trace s = trace (initial_guest Example.boot_tables) ++
      [EvRdmsr MSR_EFER; EvRes TBROK "Bootstrap did not enable 64bit paging"; EvExit] /\
    ptmem s = ptmem (initial_guest Example.boot_tables) /\
    ints s = ints (initial_guest Example.boot_tables) /\
    pf_callback s = pf_callback (initial_guest Example.boot_tables).
Proof.
  apply (no_long_mode_aborts Example.no_long_mode 0 (initial_guest Example.boot_tables)).
  reflexivity.
Defined.

(** ** Host side: what [setup] does *)

(** C10.  Whatever the host, [setup] reloads kvm_amd, with npt=0, exactly
    when its npt parameter reads as enabled, then reloads kvm_intel, with
    ept=0, exactly when its ept parameter reads as enabled, then reports the
    TINFO warning exactly when tdp_mmu of kvm reads as enabled, and then
    sets up the KVM test; it reloads no other module, and never kvm
    itself. *)
Theorem setup_reloads_only_enabled {H : Type} (sys : Host.system H) (h : H) :
  let amd := Host.read_bool_sys_param sys h Host.TDP_AMD_SYSFILE in
  let h1 := if 0 <? amd then Host.module_reload sys h "kvm_amd" ["npt=0"%string] else h in
  let intel := Host.read_bool_sys_param sys h1 Host.TDP_INTEL_SYSFILE in
  let h2 := if 0 <? intel
            then Host.module_reload sys h1 "kvm_intel" ["ept=0"%string] else h1 in
  let tdp := Host.read_bool_sys_param sys h2 Host.TDP_MMU_SYSFILE in
  let warning :=
    Host.Res TINFO "WARNING: tdp_mmu is enabled, beware of false negatives" in
  let acts := Host.setup_actions sys h in
  acts = (if 0 <? amd then [Host.Reload "kvm_amd" ["npt=0"%string]] else []) ++
         (if 0 <? intel then [Host.Reload "kvm_intel" ["ept=0"%string]] else []) ++
         (if 0 <? tdp then [warning] else []) ++ [Host.KvmSetup] /\
  (Host.Reload "kvm_amd" ["npt=0"%string] ∈ acts <-> 0 < amd) /\
  (Host.Reload "kvm_intel" ["ept=0"%string] ∈ acts <-> 0 < intel) /\
  (warning ∈ acts <-> 0 < tdp) /\
  (forall name argv, Host.Reload name argv ∈ acts ->
     (name, argv) = ("kvm_amd"%string, ["npt=0"%string]) \/
     (name, argv) = ("kvm_intel"%string, ["ept=0"%string])) /\
  (forall argv, Host.Reload "kvm" argv ∉ acts).
Proof.
  cbv zeta.
  unfold Host.setup_actions, Host.setup, Host.disable_tdp, Host.hbind,
    Host.tst_read_bool_sys_param, Host.tst_module_reload, Host.tst_res,
    Host.tst_kvm_setup, Host.hret.
  cbn [fst snd].
  destruct (Z.ltb_spec 0 (Host.read_bool_sys_param sys h Host.TDP_AMD_SYSFILE))
    as [Ha|Ha]; cbn [fst snd app];
  match goal with |- context [Host.read_bool_sys_param sys ?h1 Host.TDP_INTEL_SYSFILE] =>
    destruct (Z.ltb_spec 0 (Host.read_bool_sys_param sys h1 Host.TDP_INTEL_SYSFILE))
      as [Hi|Hi] end; cbn [fst snd app];
  match goal with |- context [Host.read_bool_sys_param sys ?h2 Host.TDP_MMU_SYSFILE] =>
    destruct (Z.ltb_spec 0 (Host.read_bool_sys_param sys h2 Host.TDP_MMU_SYSFILE))
      as [Ht|Ht] end; cbn [fst snd app];
  (split; [reflexivity|]);
  repeat split; intros;
  repeat match goal with
         | X : _ ∈ _ :: _ |- _ => apply elem_of_cons in X as [X|X]
         | X : _ ∈ [] |- _ => by apply elem_of_nil in X
         | X : Host.Reload _ _ = _ |- _ => inversion X; clear X; subst
         | X : Host.Res _ _ = _ |- _ => inversion X; clear X; subst
         | |- _ ∉ _ => intros ?
         end;
  try done; try lia; try (by left); try (by right);
  try (rewrite !elem_of_cons; tauto).
Qed.

(** ** Further properties of the payload *)

(** *** The search, when there is no table that branches *)

Lemma find_branch_at_null fuel s :
  present (entry_at (ptmem s) (idx 0 1)) = false ->
  present (entry_at (ptmem s) (idx 0 0)) = false ->
  find_branch fuel 0 s = Hung.
Proof.
  intros H1 H0. induction fuel as [|fuel IH]; simpl; rewrite H1; [done|].
  unfold kvm_get_page_address_pae. by rewrite H0.
Qed.

(** X6.  The search has no way out of a dead end: when the table it is at
    has no second entry and its first entry is not present, the next table
    is address 0, and when the entries there are not present either, the
    loop never ends, whatever the fuel. *)
Theorem find_branch_dead_end fuel t s :
  present (entry_at (ptmem s) (idx t 1)) = false ->
  present (entry_at (ptmem s) (idx t 0)) = false ->
  present (entry_at (ptmem s) (idx 0 1)) = false ->
  present (entry_at (ptmem s) (idx 0 0)) = false ->
  find_branch fuel t s = Hung.
Proof.
  intros Ht1 Ht0 H1 H0. destruct fuel as [|fuel]; simpl; rewrite Ht1; [done|].
  unfold kvm_get_page_address_pae. rewrite Ht0. by apply find_branch_at_null.
Qed.

Lemma find_branch_dead_end_witness :
  find_branch 7 Example.root (initial_guest ∅) = Hung.
Proof.
  apply (find_branch_dead_end 7 Example.root (initial_guest ∅)); reflexivity.
Defined.

(** X7.  A run of [main] can fail to end only in the search: when the run
    hangs, long mode was active and it is the loop that did not end.  Once
    the loop has ended the run ends, whatever the MMU answers, since the
    handler never sends the guest back to a faulting access. *)
Theorem main_hangs_only_in_search hw fuel s0 :
  final (main hw fuel s0) = None ->
  Z.land (rdmsr hw MSR_EFER) EFER_LMA <> 0 /\
  find_branch fuel (kvm_pagetable hw) (emit (EvRdmsr MSR_EFER) s0) = Hung.
Proof.
  unfold main. erewrite bind_run by reflexivity.
  destruct (Z.eqb_spec (Z.land (rdmsr hw MSR_EFER) EFER_LMA) 0) as [E|E].
  - cbn. discriminate.
  - erewrite bind_run by reflexivity. intros Hfin. split; [done|].
    destruct (find_branch_total fuel (kvm_pagetable hw) (emit (EvRdmsr MSR_EFER) s0))
      as [Hh|[b Hb]]; [done|].
    exfalso. revert Hfin. erewrite bind_run by exact Hb.
    destruct (quiet_construct hw b (emit (EvRdmsr MSR_EFER) s0))
      as ([] & s1 & d1 & E1 & _).
    erewrite bind_run by exact E1.
    destruct (probe_outcome hw fuel s1) as (s2 & d2 & F2 & _).
    by rewrite F2.
Qed.

Lemma main_hangs_only_in_search_witness :
  Z.land (rdmsr Example.fixed MSR_EFER) EFER_LMA <> 0 /\
  find_branch 3 (kvm_pagetable Example.fixed)
    (emit (EvRdmsr MSR_EFER) (initial_guest ∅)) = Hung.
Proof.
  apply (main_hangs_only_in_search Example.fixed 3 (initial_guest ∅)).
  vm_compute. reflexivity.
Defined.

(** *** The verdicts of a run, whatever the MMU *)

Lemma registers_bind {A B} (c : M A) (k : A -> M B) :
  returns c -> (forall a, registers (k a)) -> registers (x <- c ;; k x).
Proof.
  intros Hc Hk s. destruct (Hc s) as (a & s1 & E1).
  destruct (Hk a s1) as (a2 & s2 & E2 & P2).
  exists a2, s2. unfold bind. by rewrite E1.
Qed.

Lemma returns_store_entry a f : returns (store_entry a f).
Proof. intros s. by eexists _, _. Qed.

Lemma returns_load_entry a : returns (load_entry a).
Proof. intros s. by eexists _, _. Qed.

Lemma returns_memset p len : returns (memset p len).
Proof. intros s. by eexists _, _. Qed.

Lemma returns_alloc hw size align : returns (tst_heap_alloc_aligned hw size align).
Proof. intros s. by eexists _, _. Qed.

Lemma registers_set_callback : registers (tst_set_interrupt_callback INTR_PAGE_FAULT readonly_ptr).
Proof. intros s. by eexists _, _. Qed.

Lemma registers_construct hw pte : registers (construct hw pte).
Proof.
  unfold construct.
  repeat match goal with
         | |- registers (bind _ _) => apply registers_bind; [|intros ?; cbv zeta]
         | |- returns (store_entry _ _) => apply returns_store_entry
         | |- returns (load_entry _) => apply returns_load_entry
         | |- returns (memset _ _) => apply returns_memset
         | |- returns (tst_heap_alloc_aligned _ _ _) => apply returns_alloc
         | |- registers (tst_set_interrupt_callback _ _) => apply registers_set_callback
         end.
Qed.

(* Closes a case of [probe_verdict]: the run of the case is known. *)
Ltac verdict_leaf :=
  guest_norm; eexists _, _;
  first
    [ left; split; [reflexivity|]; split; [guest_norm; ext_log|]; by repeat split
    | right; left; eexists; split; [reflexivity|];
      split; [guest_norm; ext_log|]; by repeat split
    | right; right; eexists _, _, _; split; [reflexivity|];
      split; [guest_norm; ext_log|];
      split; [reflexivity|];
      split; [let Hx := fresh in intros Hx; by vm_compute in Hx|];
      split; [by eexists | reflexivity] ].

(* A faulting access with the handler registered for [readonly_ptr]. *)
Ltac verdict_fault E :=
  match goal with
  | |- context [bind (guest_access ?hw ?fuel ?k ?va ?v) _ (mk_guest ?pt ?i ?c ?p ?l)] =>
      let F := fresh "F" in
      pose proof (guest_access_fault hw fuel k va v (mk_guest pt i c p l) _ E) as F;
      cbv zeta in F; guest_norm_in F;
      match type of F with
      | context [?a =? uintptr ?u] =>
          let r := eval vm_compute in (a =? uintptr u) in
          change (a =? uintptr u) with r in F
      end;
      cbv iota in F;
      first [ rewrite (bind_exited _ _ _ _ F) | rewrite (bind_unhandled _ _ _ _ F) ]
  end; verdict_leaf.

(** With the handler registered for [readonly_ptr], the probe ends in one
    of three ways. *)
Lemma probe_verdict hw fuel m0 i0 c0 l0 :
  let s := mk_guest m0 i0 c0 (Some readonly_ptr) l0 in
  exists s' d,
    (probe hw fuel s = Ret tt s' /\ log s' = d ++ l0 /\
     faults (rev d) = [] /\ accesses (rev d) = probe_accesses /\
     results (rev d) = [(TFAIL, "Write to read-only address did not page fault"%string)])
    \/
    (exists c, probe hw fuel s = Exited s' /\ log s' = d ++ l0 /\
     faults (rev d) = [(readonly_ptr, c)] /\ accesses (rev d) = warming_accesses /\
     results (rev d) = [(TPASS, "KVM enforces memory write permissions"%string)])
    \/
    (exists va c k, probe hw fuel s = Unhandled s' /\ log s' = d ++ l0 /\
     faults (rev d) = [(va, c)] /\ va <> readonly_ptr /\
     (accesses (rev d) ++ [(k, va)]) `prefix_of` warming_accesses /\
     results (rev d) = []).
Proof.
  cbv zeta. unfold probe.
  destruct (mmu hw l0 m0 Load cacher1_ptr) as [pa1|ec] eqn:E1.
  2:{ verdict_fault E1. }
  rewrite (bind_run _ _ _ _ _
             (guest_load_translated hw fuel _ 0
                (mk_guest m0 i0 c0 (Some readonly_ptr) l0) _ E1)).
  guest_norm.
  match goal with
  | |- context [bind (guest_access hw fuel Store writable_ptr ?v) _
                  (mk_guest ?pt ?i ?c ?p ?l)] =>
      destruct (mmu hw l pt Store writable_ptr) as [pa2|ec] eqn:E2;
      [ rewrite (bind_run _ _ _ _ _
                   (guest_store_translated hw fuel _ v (mk_guest pt i c p l) _ E2))
      | verdict_fault E2 ]
  end.
  guest_norm.
  match goal with
  | |- context [bind (guest_access hw fuel Load cacher2_ptr ?v) _
                  (mk_guest ?pt ?i ?c ?p ?l)] =>
      destruct (mmu hw l pt Load cacher2_ptr) as [pa3|ec] eqn:E3;
      [ rewrite (bind_run _ _ _ _ _
                   (guest_load_translated hw fuel _ v (mk_guest pt i c p l) _ E3))
      | verdict_fault E3 ]
  end.
  guest_norm.
  match goal with
  | |- context [bind (guest_access hw fuel Store readonly_ptr ?v) _
                  (mk_guest ?pt ?i ?c ?p ?l)] =>
      destruct (mmu hw l pt Store readonly_ptr) as [pa4|ec] eqn:E4;
      [ rewrite (bind_run _ _ _ _ _
                   (guest_store_translated hw fuel _ v (mk_guest pt i c p l) _ E4))
      | verdict_fault E4 ]
  end.
  guest_norm. unfold tst_res. verdict_leaf.
Qed.

(** X1.  Whatever the platform (the MSRs, the tables, the heap, the MMU),
    a run of [main] that ends does so in one of four ways, with at most one
    result and at most one fault: an abort with TBROK before any access (no
    long mode); a return with TFAIL after all four accesses and no fault; an
    exit with TPASS after the three warming accesses and one fault, at
    [readonly_ptr]; or default handling of a fault at one of the warming
    accesses, with no result at all.  So TPASS is never reported for a fault
    at another address, and TFAIL never after a fault. *)
Theorem main_verdicts hw fuel m s :
  final (main hw fuel (initial_guest m)) = Some s ->
  let run := main hw fuel (initial_guest m) in
  let t := trace s in
  (run = Exited s /\
   results t = [(TBROK, "Bootstrap did not enable 64bit paging"%string)] /\
   faults t = [] /\ accesses t = [])
  \/
  (run = Ret tt s /\
   results t = [(TFAIL, "Write to read-only address did not page fault"%string)] /\
   faults t = [] /\ accesses t = probe_accesses)
  \/
  (exists c, run = Exited s /\
   results t = [(TPASS, "KVM enforces memory write permissions"%string)] /\
   faults t = [(readonly_ptr, c)] /\ accesses t = warming_accesses)
  \/
  (exists va c k, run = Unhandled s /\
   results t = [] /\ faults t = [(va, c)] /\ va <> readonly_ptr /\
   (accesses t ++ [(k, va)]) `prefix_of` warming_accesses).
Proof.
  cbv zeta. unfold main. erewrite bind_run by reflexivity.
  destruct (Z.land (rdmsr hw MSR_EFER) EFER_LMA =? 0).
  - cbn. intros [= <-]. left. by repeat split.
  - erewrite bind_run by reflexivity.
    destruct (find_branch_total fuel (kvm_pagetable hw)
                (emit (EvRdmsr MSR_EFER) (initial_guest m))) as [E|[b E]].
    { unfold bind at 1. by rewrite E. }
    erewrite bind_run by exact E.
    destruct (quiet_construct hw b (emit (EvRdmsr MSR_EFER) (initial_guest m)))
      as ([] & s1 & d1 & E1 & L1 & A1 & F1 & R1).
    destruct (registers_construct hw b (emit (EvRdmsr MSR_EFER) (initial_guest m)))
      as ([] & s1' & E1' & P1).
    rewrite E1 in E1'. injection E1' as <-.
    erewrite bind_run by exact E1.
    destruct s1 as [m1 i1 c1 p1 l1]. cbn [pf_callback log emit initial_guest] in *.
    subst p1 l1.
    assert (T : forall d, rev (d ++ d1 ++ [EvRdmsr MSR_EFER])
                          = EvRdmsr MSR_EFER :: rev d1 ++ rev d).
    { intros d. by rewrite !rev_app_distr, <- app_assoc. }
    destruct (probe_verdict hw fuel m1 i1 c1 (d1 ++ [EvRdmsr MSR_EFER]))
      as (s2 & d & [(Er & L & Fa & Ac & Re)
                   |[(c & Er & L & Fa & Ac & Re)
                    |(va & c & k & Er & L & Fa & Ne & Ac & Re)]]);
      cbv zeta in Er; rewrite Er; intros [= <-];
      unfold trace; rewrite L, T;
      unfold results, faults, accesses in *;
      rewrite !app_comm_cons, !omap_app; cbn [omap list_omap];
      rewrite ?A1, ?F1, ?R1, ?Fa, ?Re; cbn [app].
    + right. left. rewrite Ac. repeat split.
    + right. right. left. exists c. rewrite Ac. repeat split.
    + right. right. right. exists va, c, k. repeat split; assumption.
Qed.

Lemma main_verdicts_witness :
  let run := main Example.fixed 1 (initial_guest Example.boot_tables) in
  let t := trace Example.fixed_end in
  (run = Exited Example.fixed_end /\
   results t = [(TBROK, "Bootstrap did not enable 64bit paging"%string)] /\
   faults t = [] /\ accesses t = [])
  \/
  (run = Ret tt Example.fixed_end /\
   results t = [(TFAIL, "Write to read-only address did not page fault"%string)] /\
   faults t = [] /\ accesses t = probe_accesses)
  \/
  (exists c, run = Exited Example.fixed_end /\
   results t = [(TPASS, "KVM enforces memory write permissions"%string)] /\
   faults t = [(readonly_ptr, c)] /\ accesses t = warming_accesses)
  \/
  (exists va c k, run = Unhandled Example.fixed_end /\
   results t = [] /\ faults t = [(va, c)] /\ va <> readonly_ptr /\
   (accesses t ++ [(k, va)]) `prefix_of` warming_accesses).
Proof.
  apply (main_verdicts Example.fixed 1 Example.boot_tables Example.fixed_end).
  vm_compute. reflexivity.
Defined.

(** *** What [main] leaves alone *)

Lemma standard_start_b5 hw m n b tmp :
  standard_start hw m n b tmp = true -> entry_at m (b + 40) = zero_entry.
Proof.
  intros Hs.
  destruct (standard_start_facts _ _ _ _ _ Hs)
    as [Hlma Hl Hbok Hbr Hb0 Hb1 Hb2 Hb4 Hheap Ht1 Ht2 Htq Hap Hal].
  unfold standard_start in Hs.
  apply andb_prop in Hs as [Hs _]. apply andb_prop in Hs as [Hs _].
  apply andb_prop in Hs as [_ Hlay]. unfold bootstrap_layout in Hlay.
  apply andb_prop in Hlay as [_ H5]. apply bool_decide_eq_true in H5.
  pose proof pow_52_64.
  assert (E5 : idx b 5 = b + 40) by (rewrite idx_eq; lia).
  by rewrite E5 in H5.
Qed.

Lemma mutations_elem e l :
  e ∈ l -> mutations l = [] ->
  match e with EvPteStore _ | EvMemset _ _ => False | _ => True end.
Proof.
  intros He Hm. unfold mutations in Hm.
  destruct e; try done.
  - assert (X : EvMemset ptr len ∈ omap (fun e => match e with
        | EvPteStore _ | EvMemset _ _ => Some e | _ => None end) l)
      by (apply list_elem_of_omap; eauto).
    rewrite Hm in X. by apply elem_of_nil in X.
  - assert (X : EvPteStore addr ∈ omap (fun e => match e with
        | EvPteStore _ | EvMemset _ _ => Some e | _ => None end) l)
      by (apply list_elem_of_omap; eauto).
    rewrite Hm in X. by apply elem_of_nil in X.
Qed.

(** X4.  From the standard start, a run that ends has stored page-table
    entries at three places only: entries 4 and 5 of the branching table and
    the allocated block.  Every other entry in memory is what it was. *)
Theorem main_frame hw m n b tmp fuel s :
  standard_start hw m n b tmp = true -> (n <= fuel)%nat ->
  final (main hw fuel (initial_guest m)) = Some s ->
  (forall a, EvPteStore a ∈ trace s ->
     a = idx b 4 \/ a = idx b 5 \/ tmp <= a < tmp + 5 * PAGESIZE) /\
  (forall a, a <> idx b 4 -> a <> idx b 5 -> ~ (tmp <= a < tmp + 5 * PAGESIZE) ->
     entry_at (ptmem s) a = entry_at m a).
Proof.
  intros Hs Hf Hfin.
  destruct (main_tables _ _ _ _ _ _ _ Hs Hf Hfin) as (Hpt & post & Ht & Mu & _).
  destruct (standard_start_facts _ _ _ _ _ Hs)
    as [Hlma Hl Hbok Hbr Hb0 Hb1 Hb2 Hb4 Hheap Ht1 Ht2 Htq Hap Hal].
  pose proof pow_52_64.
  assert (E4 : idx b 4 = b + 32) by (rewrite idx_eq; lia).
  assert (E5 : idx b 5 = b + 40) by (rewrite idx_eq; lia).
  rewrite E4, E5. split.
  - intros a Ha. rewrite Ht in Ha.
    apply elem_of_cons in Ha as [Ha|Ha]; [discriminate|].
    apply elem_of_app in Ha as [Ha|Ha].
    + unfold setup_events, store_events in Ha. cbn [replicate app] in Ha.
      unfold PAGESIZE.
      repeat (apply elem_of_cons in Ha as [Ha|Ha];
              [try discriminate; injection Ha as ->; lia|]).
      by apply elem_of_nil in Ha.
    + by destruct (mutations_elem _ _ Ha Mu).
  - intros a N4 N5 Nb. unfold PAGESIZE in Nb. rewrite Hpt. by built_cell.
Qed.

Lemma main_frame_witness :
  (forall a, EvPteStore a ∈ trace Example.fixed_end ->
     a = idx Example.pdpt 4 \/ a = idx Example.pdpt 5 \/
     Example.heap <= a < Example.heap + 5 * PAGESIZE) /\
  (forall a, a <> idx Example.pdpt 4 -> a <> idx Example.pdpt 5 ->
     ~ (Example.heap <= a < Example.heap + 5 * PAGESIZE) ->
     entry_at (ptmem Example.fixed_end) a = entry_at Example.boot_tables a).
Proof.
  apply (main_frame Example.fixed Example.boot_tables 1 Example.pdpt Example.heap 1).
  - vm_compute. reflexivity.
  - lia.
  - vm_compute. reflexivity.
Defined.

(** An entry that was present is not one [main] overwrites. *)
Lemma built_keeps_present hw m n b tmp a :
  standard_start hw m n b tmp = true ->
  present (entry_at m a) = true ->
  entry_at (built_tables m b tmp) a = entry_at m a.
Proof.
  intros Hs Hp.
  pose proof (standard_start_b5 _ _ _ _ _ Hs) as Hb5.
  destruct (standard_start_facts _ _ _ _ _ Hs)
    as [Hlma Hl Hbok Hbr Hb0 Hb1 Hb2 Hb4 Hheap Ht1 Ht2 Htq Hap Hal].
  destruct (heap_ok_spec _ _ Hheap) as (_ & _ & _ & Hfresh).
  assert (N4 : b + 32 <> a) by (intros <-; by rewrite Hb4 in Hp).
  assert (N5 : b + 40 <> a) by (intros <-; by rewrite Hb5 in Hp).
  assert (Nb : ~ (tmp <= a < tmp + 20480)).
  { intros Hin. rewrite (block_fresh_entry m tmp a Hfresh) in Hp;
      [done | unfold PAGESIZE; lia]. }
  by built_cell.
Qed.

Lemma walk_preserved inherit (m m' : gmap Z page_table_entry_pae) :
  (forall a, present (entry_at m a) = true -> entry_at m' a = entry_at m a) ->
  forall lvl t va w r,
    walk inherit lvl m t va w = Some r -> walk inherit lvl m' t va w = Some r.
Proof.
  intros Hk. induction lvl as [|l IH]; intros t va w r.
  - rewrite !walk_O. cbv zeta.
    destruct (present (entry_at m _)) eqn:E; [|done].
    by rewrite (Hk _ E), E.
  - rewrite !walk_S. cbv zeta.
    destruct (present (entry_at m _)) eqn:E; [|done].
    rewrite (Hk _ E), E.
    destruct (page_type _); [done|]. apply IH.
Qed.

(** X2.  [main] only adds mappings: from the standard start, every
    translation the page tables gave before the run, from any table, at any
    level and with the permission it had, they still give when the run has
    ended; in particular whatever the corrected implementation translated
    before, it translates to the same address after. *)
Theorem main_preserves_translations hw m n b tmp fuel s :
  standard_start hw m n b tmp = true -> (n <= fuel)%nat ->
  final (main hw fuel (initial_guest m)) = Some s ->
  (forall inherit lvl t va w r,
     walk inherit lvl m t va w = Some r ->
     walk inherit lvl (ptmem s) t va w = Some r) /\
  (forall levels root h k va pa,
     corrected_mmu levels root h m k va = Translated pa ->
     corrected_mmu levels root h (ptmem s) k va = Translated pa).
Proof.
  intros Hs Hf Hfin.
  destruct (main_tables _ _ _ _ _ _ _ Hs Hf Hfin) as (Hpt & _).
  rewrite Hpt.
  assert (W : forall inherit lvl t va w r,
             walk inherit lvl m t va w = Some r ->
             walk inherit lvl (built_tables m b tmp) t va w = Some r).
  { intros inherit. apply walk_preserved.
    intros a Hp. by apply (built_keeps_present hw m n b tmp). }
  split; [exact W|].
  intros levels root h k va pa. unfold corrected_mmu, walking_mmu.
  destruct (walk andb (levels - 1) m root va true) as [[pa0 w0]|] eqn:E; [|done].
  by rewrite (W _ _ _ _ _ _ E).
Qed.

Lemma main_preserves_translations_witness :
  (forall inherit lvl t va w r,
     walk inherit lvl Example.boot_tables t va w = Some r ->
     walk inherit lvl (ptmem Example.fixed_end) t va w = Some r) /\
  (forall levels root h k va pa,
     corrected_mmu levels root h Example.boot_tables k va = Translated pa ->
     corrected_mmu levels root h (ptmem Example.fixed_end) k va = Translated pa).
Proof.
  apply (main_preserves_translations Example.fixed Example.boot_tables 1
           Example.pdpt Example.heap 1).
  - vm_compute. reflexivity.
  - lia.
  - vm_compute. reflexivity.
Defined.

(** *** The two windows *)

Lemma pt_index_range lvl va : 0 <= va -> 0 <= pt_index lvl va <= 511.
Proof.
  intros Hva. unfold pt_index, PTE_BITMASK.
  change 0x1ff with (Z.ones 9). rewrite Z.land_ones by lia.
  change (2 ^ 9) with 512. change (Z.ones 9) with 511.
  pose proof (Z.mod_pos_bound (Z.shiftr va (12 + 9 * Z.of_nat lvl)) 512). lia.
Qed.

Lemma window_walk m b tmp va (top : bool) :
  0 <= b < 2 ^ 52 ->
  0 <= tmp -> tmp + 20480 <= 2 ^ 52 -> (exists q, tmp = 4096 * q) ->
  b + 4096 <= tmp \/ tmp + 20480 <= b ->
  0 <= va ->
  pt_index 2 va = (if top then 4 else 5) ->
  walk andb 2 (built_tables m b tmp) b va true =
  if pt_index 0 va =? 0 then
    if pt_index 1 va =? 0
    then Some (tmp + 3 * PAGESIZE + Z.land va (PAGESIZE - 1), false)
    else if pt_index 1 va =? 1
         then Some (tmp + 4 * PAGESIZE + Z.land va (PAGESIZE - 1), top)
         else None
  else None.
Proof.
  intros Hb Ht1 Ht2 Hq Hd Hva H2.
  destruct (block_frames tmp Ht1 Hq) as (F0 & F1 & F2 & F3 & F4).
  pose proof (pt_index_range 1 va Hva) as R1.
  pose proof (pt_index_range 0 va Hva) as R0.
  rewrite walk_S. cbv zeta. rewrite H2. unfold PTE_SIZE.
  assert (E2 : entry_at (built_tables m b tmp) (b + 8 * (if top then 4 else 5))
               = table_entry top tmp).
  { destruct top; by built_cell. }
  rewrite E2, table_entry_present, table_entry_page_type, table_entry_writable,
    table_entry_address, F0.
  cbn [andb].
  rewrite walk_S. cbv zeta. unfold PTE_SIZE.
  destruct (Z.eqb_spec (pt_index 1 va) 0) as [E1|N0].
  - rewrite E1. built_cell.
    rewrite table_entry_present, table_entry_page_type, table_entry_writable,
      table_entry_address, F1.
    rewrite Bool.andb_false_r.
    rewrite walk_O. cbv zeta. unfold PTE_SIZE.
    destruct (Z.eqb_spec (pt_index 0 va) 0) as [E0|M0].
    + rewrite E0. built_cell.
      rewrite table_entry_present, table_entry_writable, table_entry_address, F3.
      unfold PAGESIZE. do 2 f_equal. 
    + built_cell. reflexivity.
  - destruct (Z.eqb_spec (pt_index 1 va) 1) as [E1|N1].
    + rewrite E1. built_cell.
      rewrite table_entry_present, table_entry_page_type, table_entry_writable,
        table_entry_address, F2.
      rewrite Bool.andb_true_r.
      rewrite walk_O. cbv zeta. unfold PTE_SIZE.
      destruct (Z.eqb_spec (pt_index 0 va) 0) as [E0|M0].
      * rewrite E0. built_cell.
        rewrite table_entry_present, table_entry_writable, table_entry_address, F4.
        rewrite Bool.andb_true_r. unfold PAGESIZE. do 2 f_equal. 
      * built_cell. reflexivity.
    + built_cell. by destruct (pt_index 0 va =? 0).
Qed.

(** X3.  From the standard start, when a run has ended each of the two new
    1 GiB windows (entries 4 and 5 of the branching table) maps exactly two
    4 KiB pages and nothing else: its first page goes to the fourth page of
    the block, read-only, and the page 2 MiB above goes to the fifth page of
    the block, writable in the first window and read-only in the second.
    So on the corrected implementation a write anywhere in the two windows
    goes through only in the page at [writable_ptr]. *)
Theorem window_pages hw m n b tmp fuel s :
  standard_start hw m n b tmp = true -> (n <= fuel)%nat ->
  final (main hw fuel (initial_guest m)) = Some s ->
  forall va, 0 <= va < 2 ^ 39 ->
    pt_index 2 va = 4 \/ pt_index 2 va = 5 ->
    walk andb (n + 2) (ptmem s) (kvm_pagetable hw) va true =
      (if pt_index 0 va =? 0 then
         if pt_index 1 va =? 0
         then Some (tmp + 3 * PAGESIZE + Z.land va (PAGESIZE - 1), false)
         else if pt_index 1 va =? 1
              then Some (tmp + 4 * PAGESIZE + Z.land va (PAGESIZE - 1),
                         pt_index 2 va =? 4)
              else None
       else None) /\
    (forall h pa,
       corrected_mmu (n + 3) (kvm_pagetable hw) h (ptmem s) Store va = Translated pa ->
       pt_index 2 va = 4 /\ pt_index 1 va = 1 /\ pt_index 0 va = 0 /\
       pa = tmp + 4 * PAGESIZE + Z.land va (PAGESIZE - 1)).
Proof.
  intros Hs Hf Hfin va Hva H2.
  destruct (main_tables _ _ _ _ _ _ _ Hs Hf Hfin) as (Hpt & _).
  destruct (standard_start_facts _ _ _ _ _ Hs)
    as [Hlma Hl Hbok Hbr Hb0 Hb1 Hb2 Hb4 Hheap Ht1 Ht2 Htq Hap Hal].
  rewrite Hpt.
  assert (W : walk andb (n + 2) (built_tables m b tmp) (kvm_pagetable hw) va true =
              (if pt_index 0 va =? 0 then
                 if pt_index 1 va =? 0
                 then Some (tmp + 3 * PAGESIZE + Z.land va (PAGESIZE - 1), false)
                 else if pt_index 1 va =? 1
                      then Some (tmp + 4 * PAGESIZE + Z.land va (PAGESIZE - 1),
                                 pt_index 2 va =? 4)
                      else None
               else None)).
  { rewrite (walk_upper m b tmp) by done.
    destruct H2 as [H2|H2].
    - rewrite (window_walk m b tmp va true) by (done || lia). by rewrite H2.
    - rewrite (window_walk m b tmp va false) by (done || lia). by rewrite H2. }
  split; [exact W|].
  intros h pa. unfold corrected_mmu, walking_mmu.
  replace (n + 3 - 1)%nat with (n + 2)%nat by lia. rewrite W.
  destruct (Z.eqb_spec (pt_index 0 va) 0) as [E0|N0]; [|done].
  destruct (Z.eqb_spec (pt_index 1 va) 0) as [E1|N1]; [done|].
  destruct (Z.eqb_spec (pt_index 1 va) 1) as [E1|N1']; [|done].
  destruct (Z.eqb_spec (pt_index 2 va) 4) as [E2|N2]; [|done].
  by intros [= <-].
Qed.

Lemma window_pages_witness :
  walk andb (1 + 2) (ptmem Example.fixed_end) (kvm_pagetable Example.fixed)
       (writable_ptr + 0x10) true =
    (if pt_index 0 (writable_ptr + 0x10) =? 0 then
       if pt_index 1 (writable_ptr + 0x10) =? 0
       then Some (Example.heap + 3 * PAGESIZE
                  + Z.land (writable_ptr + 0x10) (PAGESIZE - 1), false)
       else if pt_index 1 (writable_ptr + 0x10) =? 1
            then Some (Example.heap + 4 * PAGESIZE
                       + Z.land (writable_ptr + 0x10) (PAGESIZE - 1),
                       pt_index 2 (writable_ptr + 0x10) =? 4)
            else None
     else None) /\
  (forall h pa,
     corrected_mmu (1 + 3) (kvm_pagetable Example.fixed) h (ptmem Example.fixed_end)
       Store (writable_ptr + 0x10) = Translated pa ->
     pt_index 2 (writable_ptr + 0x10) = 4 /\ pt_index 1 (writable_ptr + 0x10) = 1 /\
     pt_index 0 (writable_ptr + 0x10) = 0 /\
     pa = Example.heap + 4 * PAGESIZE + Z.land (writable_ptr + 0x10) (PAGESIZE - 1)).
Proof.
  apply (window_pages Example.fixed Example.boot_tables 1 Example.pdpt Example.heap 1
           Example.fixed_end).
  - vm_compute. reflexivity.
  - lia.
  - vm_compute. reflexivity.
  - vm_compute. split; [discriminate | reflexivity].
  - left. reflexivity.
Defined.

(** ** Further properties of the host side *)

(* Refutes a parameter read as enabled right after the reload that turns it
   off. *)
Ltac reload_took_effect Hamd Hintel Hkeep :=
  exfalso;
  repeat match goal with
         | X : 0 < Host.read_bool_sys_param _ (Host.module_reload _ _ "kvm_intel" _)
                     Host.TDP_AMD_SYSFILE |- _ => rewrite Hkeep in X
         end;
  match goal with
  | X : 0 < Host.read_bool_sys_param _ (Host.module_reload _ ?x "kvm_amd" _)
              Host.TDP_AMD_SYSFILE |- _ => pose proof (Hamd x); lia
  | X : 0 < Host.read_bool_sys_param _ (Host.module_reload _ ?x "kvm_intel" _)
              Host.TDP_INTEL_SYSFILE |- _ => pose proof (Hintel x); lia
  | _ => lia
  end.

(** X8.  On a host where a reload with the parameter set to 0 takes effect
    (npt reads as off after kvm_amd is reloaded with npt=0, ept reads as off
    after kvm_intel is reloaded with ept=0, and reloading kvm_intel leaves
    npt as it reads), running [disable_tdp] a second time reloads nothing:
    the reloads of two runs in a row are those of the first. *)
Theorem disable_tdp_twice_reloads {H : Type} (sys : Host.system H) (h : H) :
  (forall x, Host.read_bool_sys_param sys
               (Host.module_reload sys x "kvm_amd" ["npt=0"%string])
               Host.TDP_AMD_SYSFILE <= 0) ->
  (forall x, Host.read_bool_sys_param sys
               (Host.module_reload sys x "kvm_intel" ["ept=0"%string])
               Host.TDP_INTEL_SYSFILE <= 0) ->
  (forall x, Host.read_bool_sys_param sys
               (Host.module_reload sys x "kvm_intel" ["ept=0"%string])
               Host.TDP_AMD_SYSFILE
             = Host.read_bool_sys_param sys x Host.TDP_AMD_SYSFILE) ->
  reloads (disable_tdp_twice sys (h, [])).2.2 =
  reloads (Host.disable_tdp sys (h, [])).2.2.
Proof.
  intros Hamd Hintel Hkeep.
  unfold disable_tdp_twice, Host.disable_tdp, Host.hbind,
    Host.tst_read_bool_sys_param, Host.tst_module_reload, Host.tst_res, Host.hret.
  cbn [fst snd].
  destruct (Z.ltb_spec 0 (Host.read_bool_sys_param sys h Host.TDP_AMD_SYSFILE))
    as [A1|A1]; cbn [fst snd app];
  match goal with |- context [Host.read_bool_sys_param sys ?x Host.TDP_INTEL_SYSFILE] =>
    destruct (Z.ltb_spec 0 (Host.read_bool_sys_param sys x Host.TDP_INTEL_SYSFILE))
      as [I1|I1] end; cbn [fst snd app];
  match goal with |- context [Host.read_bool_sys_param sys ?x Host.TDP_MMU_SYSFILE] =>
    destruct (Z.ltb_spec 0 (Host.read_bool_sys_param sys x Host.TDP_MMU_SYSFILE))
      as [T1|T1] end; cbn [fst snd app];
  match goal with |- context [0 <? Host.read_bool_sys_param sys ?x Host.TDP_AMD_SYSFILE] =>
    destruct (Z.ltb_spec 0 (Host.read_bool_sys_param sys x Host.TDP_AMD_SYSFILE))
      as [A2|A2] end; cbn [fst snd app];
  try (reload_took_effect Hamd Hintel Hkeep);
  match goal with |- context [0 <? Host.read_bool_sys_param sys ?x Host.TDP_INTEL_SYSFILE] =>
    destruct (Z.ltb_spec 0 (Host.read_bool_sys_param sys x Host.TDP_INTEL_SYSFILE))
      as [I2|I2] end; cbn [fst snd app];
  try (reload_took_effect Hamd Hintel Hkeep);
  match goal with |- context [0 <? Host.read_bool_sys_param sys ?x Host.TDP_MMU_SYSFILE] =>
    destruct (Z.ltb_spec 0 (Host.read_bool_sys_param sys x Host.TDP_MMU_SYSFILE))
      as [T2|T2] end; cbn [fst snd app];
  reflexivity.
Qed.

Lemma disable_tdp_twice_reloads_witness :
  reloads (disable_tdp_twice HostExample.sys ((1, 1, 1), [])).2.2 =
  reloads (Host.disable_tdp HostExample.sys ((1, 1, 1), [])).2.2.
Proof.
  apply (disable_tdp_twice_reloads HostExample.sys (1, 1, 1)).
  - intros x. vm_compute. discriminate.
  - intros x. vm_compute. discriminate.
  - intros [[a i] t]. reflexivity.
Defined.

(** ** Runs from a block with stale contents *)

Lemma layout_start_facts hw m n b tmp :
  layout_start hw m n b tmp = true ->
  (Z.land (rdmsr hw MSR_EFER) EFER_LMA =? 0) = false /\
  leads_to m n (kvm_pagetable hw) b = true /\
  0 <= b < 2 ^ 52 /\
  present (entry_at m (idx b 1)) = true /\
  entry_at m (b + 32) = zero_entry /\
  0 <= tmp /\ tmp + 20480 <= 2 ^ 52 /\ (exists q, tmp = 4096 * q) /\
  (b + 4096 <= tmp \/ tmp + 20480 <= b) /\
  heap_alloc hw (5 * PAGESIZE) PAGESIZE = tmp.
Proof.
  unfold layout_start, PAGESIZE. intros H.
  apply andb_prop in H as [H Halloc]. apply andb_prop in H as [H Hap].
  apply andb_prop in H as [H Hal]. apply andb_prop in H as [H Ht2].
  apply andb_prop in H as [H Ht1]. apply andb_prop in H as [Hlma Hlay].
  unfold bootstrap_layout in Hlay.
  apply andb_prop in Hlay as [Hlay _]. apply andb_prop in Hlay as [Hlay H4].
  apply andb_prop in Hlay as [Hlay _]. apply andb_prop in Hlay as [Hlay _].
  apply andb_prop in Hlay as [Hlay H1]. apply andb_prop in Hlay as [Hl _].
  apply negb_true_iff in Hlma. apply bool_decide_eq_true in H4.
  apply Z.eqb_eq in Halloc. apply Z.eqb_eq in Hal.
  apply Z.leb_le in Ht1. apply Z.leb_le in Ht2.
  apply orb_prop in Hap.
  destruct (leads_to_table_ok _ _ _ _ Hl) as [_ Hb].
  destruct (table_ok_spec _ Hb) as [Hr _].
  pose proof pow_52_64.
  assert (E4 : idx b 4 = b + 32) by (rewrite idx_eq; lia).
  rewrite E4 in H4.
  assert (Hq : exists q, tmp = 4096 * q).
  { exists (tmp / 4096). apply Z.div_exact in Hal; lia. }
  assert (Hd : b + 4096 <= tmp \/ tmp + 20480 <= b).
  { destruct Hap as [Hap|Hap]; apply Z.leb_le in Hap; lia. }
  repeat split; (done || lia).
Qed.

(** Every standard start is one of these: a fresh block is a special case
    of a block that holds anything. *)
Lemma standard_start_layout_start hw m n b tmp :
  standard_start hw m n b tmp = true -> layout_start hw m n b tmp = true.
Proof.
  intros Hs.
  destruct (standard_start_facts _ _ _ _ _ Hs)
    as [Hlma Hl Hbok Hbr Hb0 Hb1 Hb2 Hb4 Hheap Ht1 Ht2 Htq Hap Hal].
  unfold standard_start in Hs.
  apply andb_prop in Hs as [Hs Halloc]. apply andb_prop in Hs as [Hs _].
  apply andb_prop in Hs as [Hlma' Hlay].
  unfold heap_ok in Hheap.
  apply andb_prop in Hheap as [Hh _]. apply andb_prop in Hh as [Hh H3].
  apply andb_prop in Hh as [H1 H2].
  unfold layout_start. rewrite Hlma', Hlay, H1, H2, H3, Halloc. cbn [andb].
  rewrite Bool.andb_true_r. apply orb_true_iff. unfold PAGESIZE.
  destruct Hap; [left | right]; apply Z.leb_le; lia.
Qed.

(** From such a start too, [main] arrives at the probe with the tables
    built, the whole block zeroed first, page-table cells and data words
    alike. *)
Lemma main_reaches_probe_from hw m i n b tmp fuel :
  layout_start hw m n b tmp = true -> (n <= fuel)%nat ->
  main hw fuel (boot_guest m i) =
  probe hw fuel
    (mk_guest (built_tables m b tmp) (zero_fill tmp (5 * PAGESIZE) i) 0
       (Some readonly_ptr) (rev (setup_events b tmp) ++ [EvRdmsr MSR_EFER])).
Proof.
  intros Hs Hf.
  destruct (layout_start_facts _ _ _ _ _ Hs)
    as (Hlma & Hl & Hbr & Hb1 & Hb4 & Ht1 & Ht2 & Htq & Hap & Hal).
  unfold main, boot_guest.
  erewrite bind_run by reflexivity.
  rewrite Hlma.
  erewrite bind_run by reflexivity.
  erewrite bind_run by (apply find_branch_leads_to with (n := n); done).
  guest_norm.
  erewrite bind_run by (by apply construct_spec).
  reflexivity.
Qed.

Lemma main_tables_from hw m i n b tmp fuel s :
  layout_start hw m n b tmp = true -> (n <= fuel)%nat ->
  final (main hw fuel (boot_guest m i)) = Some s ->
  ptmem s = built_tables m b tmp /\
  exists post,
    trace s = EvRdmsr MSR_EFER :: setup_events b tmp ++ post /\
    mutations post = [] /\ allocations post = [].
Proof.
  intros Hs Hf. rewrite (main_reaches_probe_from hw m i n b tmp) by done.
  match goal with |- final (probe hw fuel ?s1) = _ -> _ =>
    destruct (probe_outcome hw fuel s1) as (s2 & d & F & L & P & Mu & Al & _)
  end.
  rewrite F. intros [= <-]. split; [exact P|].
  exists (rev d). unfold trace. rewrite L. guest_norm.
  rewrite !rev_app_distr, rev_involutive. by rewrite <- app_assoc.
Qed.

(** C8.  Whatever the allocated block holds at the start (stale entries,
    present ones included, and stale data), from the documented layout a run
    that ends has asked the heap once, for (3 + 2) pages aligned to a page;
    the block is zeroed right after, before any entry is stored; and at the
    end every cell of the block reads as zero except the four entries the
    payload installed, whose fields are the ones assigned and nothing left
    over from before: no stale entry of the block is left as a mapping. *)
Theorem block_allocated_and_zeroed hw m i n b tmp fuel s :
  layout_start hw m n b tmp = true -> (n <= fuel)%nat ->
  final (main hw fuel (boot_guest m i)) = Some s ->
  allocations (trace s) = [((3 + 2) * PAGESIZE, PAGESIZE, tmp)] /\
  (exists post,
     trace s = [EvRdmsr MSR_EFER; EvAlloc (5 * PAGESIZE) PAGESIZE tmp;
                EvMemset tmp (5 * PAGESIZE)] ++ post /\
     allocations post = []) /\
  (forall a, tmp <= a < tmp + 5 * PAGESIZE ->
     entry_at (ptmem s) a = default zero_entry (installed tmp a)).
Proof.
  intros Hs Hf Hfin.
  destruct (main_tables_from _ _ _ _ _ _ _ _ Hs Hf Hfin) as (Hpt & post & Ht & Mu & Al).
  destruct (layout_start_facts _ _ _ _ _ Hs)
    as (Hlma & Hl & Hbr & Hb1 & Hb4 & Ht1 & Ht2 & Htq & Hap & Hal).
  split; [|split].
  - rewrite Ht. unfold allocations in *. rewrite app_comm_cons, omap_app, Al.
    reflexivity.
  - exists (store_events b tmp ++ post). split; [rewrite Ht; reflexivity|].
    unfold allocations in *. rewrite omap_app, Al. reflexivity.
  - intros a Ha. rewrite Hpt. unfold installed, PAGESIZE, PTE_SIZE in *.
    rewrite entry_at_built.
    repeat (case_decide; try (exfalso; unfold PAGESIZE in *; lia)); done.
Qed.

(** The witness starts from a dirty block, which is not a standard start:
    four stale entries in the block are present, and the data pages hold
    stale words. *)
Lemma block_allocated_and_zeroed_witness :
  (standard_start Example.vulnerable StaleExample.stale_tables 1
     Example.pdpt Example.heap = false /\
   present (entry_at StaleExample.stale_tables (Example.heap + 16)) = true) /\
  allocations (trace StaleExample.stale_end) =
    [((3 + 2) * PAGESIZE, PAGESIZE, Example.heap)] /\
  (exists post,
     trace StaleExample.stale_end =
       [EvRdmsr MSR_EFER; EvAlloc (5 * PAGESIZE) PAGESIZE Example.heap;
        EvMemset Example.heap (5 * PAGESIZE)] ++ post /\
     allocations post = []) /\
  (forall a, Example.heap <= a < Example.heap + 5 * PAGESIZE ->
     entry_at (ptmem StaleExample.stale_end) a =
     default zero_entry (installed Example.heap a)).
Proof.
  split; [split; vm_compute; reflexivity|].
  apply (block_allocated_and_zeroed Example.vulnerable StaleExample.stale_tables
           StaleExample.stale_data 1 Example.pdpt Example.heap 1).
  - vm_compute. reflexivity.
  - lia.
  - vm_compute. reflexivity.
Defined.

(** *** The block's former contents do not matter *)

Lemma zero_fill_agree {V} tmp (m1 m2 : gmap Z V) :
  (forall a, ~ (tmp <= a < tmp + 5 * PAGESIZE) -> m1 !! a = m2 !! a) ->
  zero_fill tmp (5 * PAGESIZE) m1 = zero_fill tmp (5 * PAGESIZE) m2.
Proof.
  intros Ha. apply map_eq. intros a. rewrite !lookup_zero_fill.
  case_decide; [done|]. by apply Ha.
Qed.

(** X5.  The run does not depend on what the allocated block held before,
    be it page-table cells (stale entries, present ones included) or data
    words: from two starts with the documented layout whose page-table
    memories and data memories differ at most inside the block, [main] runs
    the same way, to the same outcome, final state and trace. *)
Theorem main_ignores_block_contents hw m1 m2 i1 i2 n b tmp fuel :
  layout_start hw m1 n b tmp = true ->
  layout_start hw m2 n b tmp = true ->
  agree_outside tmp m1 m2 ->
  data_agree_outside tmp i1 i2 ->
  (n <= fuel)%nat ->
  main hw fuel (boot_guest m1 i1) = main hw fuel (boot_guest m2 i2).
Proof.
  intros H1 H2 Ha Hi Hf.
  rewrite (main_reaches_probe_from hw m1 i1 n b tmp),
    (main_reaches_probe_from hw m2 i2 n b tmp) by done.
  unfold built_tables.
  by rewrite (zero_fill_agree tmp m1 m2 Ha), (zero_fill_agree tmp i1 i2 Hi).
Qed.

(** The witness compares a clean start with a dirty one, whose block holds
    present stale entries and stale data. *)
Lemma main_ignores_block_contents_witness :
  main Example.fixed 1 (boot_guest Example.boot_tables (<[0x500 := 42]> ∅)) =
  main Example.fixed 1 (boot_guest StaleExample.stale_tables StaleExample.stale_data).
Proof.
  apply (main_ignores_block_contents Example.fixed _ _ _ _ 1 Example.pdpt Example.heap 1).
  - vm_compute. reflexivity.
  - vm_compute. reflexivity.
  - intros a Ha. unfold StaleExample.stale_tables.
    by rewrite !lookup_insert_ne
      by (intros <-; apply Ha; unfold Example.heap, PAGESIZE; lia).
  - intros a Ha. unfold StaleExample.stale_data.
    rewrite (lookup_insert_ne _ (Example.heap + 12288))
      by (intros <-; apply Ha; unfold Example.heap, PAGESIZE; lia).
    by rewrite (lookup_insert_ne _ (Example.heap + 16384))
      by (intros <-; apply Ha; unfold Example.heap, PAGESIZE; lia).
  - lia.
Defined.
